(** * POMCP: particle beliefs carried by a Monte-Carlo search tree

    A shallow embedding of [pomdp_py/algorithms/pomcp.py].

    Python objects live in a store and are named by references, so that the
    sharing the program creates (a node built from another node, a default
    argument evaluated once) is visible.  Every method is a computation over
    the store that either returns a value or raises an exception; in both
    cases the store reached so far is kept, since a Python exception does not
    undo earlier assignments.

    The base search engine [POUCT] and the agent are collaborators whose code
    is outside this file: the engine's entry points are parameters of the
    development, the agent is a record of the attributes the planner reads
    and writes. *)

From Stdlib Require Import ZArith.
From stdpp Require Import gmap strings list pretty.

Local Open Scope Z_scope.

(** ** Exceptions *)

Inductive exn :=
| TypeError (msg : string)
| ValueError (msg : string)
| AttributeError (msg : string)
| IndexError (msg : string)
| SystemError (msg : string).

(** The two exceptions the planner raises itself. *)
Definition representation_mismatch : exn :=
  TypeError ("Agent's belief is not represented in particles."
             +:+ String (Ascii.ascii_of_nat 10) "POMCP not usable. Please convert it to particles.").

Definition particle_deprivation : exn := ValueError "Particle deprivation.".

(** Exceptions of the interpreter on ill-typed operands. *)
Definition not_subscriptable : exn :=
  TypeError "'NoneType' object is not subscriptable".
Definition no_len : exn := TypeError "object has no len()".
Definition no_attribute (name : string) : exn :=
  AttributeError ("object has no attribute '" +:+ name +:+ "'").
Definition empty_choice : exn :=
  IndexError "Cannot choose from an empty sequence".
(** A reference outside the store; no Python program can build one. *)
Definition dangling : exn := SystemError "dangling reference".

(** References into the store. *)
Abbreviation loc := nat.

(** ** Outcomes

    A computation over a store [W] returns a value, raises an exception, or
    is cut off because a loop was given too few rounds. *)

Inductive outcome (W A : Type) :=
| Ok (a : A) (w : W)
| Raise (e : exn) (w : W)
| OutOfFuel.
Arguments Ok {W A} a w.
Arguments Raise {W A} e w.
Arguments OutOfFuel {W A}.

Section POMCP.

(** Hidden states, actions, observations and floating-point numbers are
    opaque, and so is the dictionary of arguments for the action prior: the
    planner stores and passes them and computes nothing with them.  States
    are values, so a deep copy of a state is the state. *)
Context {State Action Observation float PriorArgs : Type}.
Context `{Countable Action, Countable Observation}.

(** [agent.history]: a tuple of (action, observation) pairs. *)
Local Abbreviation History := (list (Action * Observation)).

(** What a belief or history attribute may hold. *)
Inductive val :=
| VNone
| VBelief (l : loc)
| VHistory (h : History).

(** Modelled from the spec: the class [Particles] of
    [pomdp_py.representations.distribution.particles], a collection of
    states with duplicates, and any other belief representation, of which
    only the fact that it is not [Particles] matters. *)
Inductive belief_obj :=
| Particles (particles : list State)
| OtherDistribution.

(** Instances of [VNodeParticles]; [history] is [Some] exactly for the
    instances of [RootVNodeParticles].  [children] names a dict object
    (action -> QNode). *)
Record VNode := mkVNode {
  num_visits : Z;
  value : float;
  belief : val;
  children : loc;
  history : option val
}.

(** Attribute assignment on an instance. *)
Definition with_belief (b : val) (self : VNode) : VNode :=
  mkVNode (num_visits self) (value self) b (children self) (history self).
Definition with_children (d : loc) (self : VNode) : VNode :=
  mkVNode (num_visits self) (value self) (belief self) d (history self).
Definition with_history (h : val) (self : VNode) : VNode :=
  mkVNode (num_visits self) (value self) (belief self) (children self) (Some h).

(** Modelled from the spec: the base engine's action node, which maps an
    observation to a child node or to the never-simulated marker [None]. *)
Record QNode := mkQNode {
  q_num_visits : Z;
  q_value : float;
  q_children : gmap Observation (option loc)
}.

(** Modelled from the spec: the agent's attributes.  [tree] is [None] when
    the attribute is not set, [Some None] when it is set to [None]. *)
Record Agent := mkAgent {
  agent_belief : val;
  agent_init_belief : val;
  agent_history : History;
  agent_tree : option (option loc)
}.

Record World := mkWorld {
  beliefs : list belief_obj;
  vnodes : list VNode;
  dicts : list (gmap Action loc);
  qnodes : list QNode;
  agent : Agent;
  stdout : list string;
  (** the objects [Particles([])] bound as default arguments when the two
      classes were defined *)
  VNodeParticles_default : val;
  RootVNodeParticles_default : val;
  (** the draws of the random generator, and how many were consumed *)
  rng : nat -> nat;
  rng_pos : nat
}.

Definition set_beliefs (b : list belief_obj) (w : World) : World :=
  mkWorld b (vnodes w) (dicts w) (qnodes w) (agent w) (stdout w)
    (VNodeParticles_default w) (RootVNodeParticles_default w) (rng w) (rng_pos w).
Definition set_vnodes (v : list VNode) (w : World) : World :=
  mkWorld (beliefs w) v (dicts w) (qnodes w) (agent w) (stdout w)
    (VNodeParticles_default w) (RootVNodeParticles_default w) (rng w) (rng_pos w).
Definition set_dicts (d : list (gmap Action loc)) (w : World) : World :=
  mkWorld (beliefs w) (vnodes w) d (qnodes w) (agent w) (stdout w)
    (VNodeParticles_default w) (RootVNodeParticles_default w) (rng w) (rng_pos w).
Definition set_agent (a : Agent) (w : World) : World :=
  mkWorld (beliefs w) (vnodes w) (dicts w) (qnodes w) a (stdout w)
    (VNodeParticles_default w) (RootVNodeParticles_default w) (rng w) (rng_pos w).
Definition set_stdout (s : list string) (w : World) : World :=
  mkWorld (beliefs w) (vnodes w) (dicts w) (qnodes w) (agent w) s
    (VNodeParticles_default w) (RootVNodeParticles_default w) (rng w) (rng_pos w).
Definition set_rng_pos (n : nat) (w : World) : World :=
  mkWorld (beliefs w) (vnodes w) (dicts w) (qnodes w) (agent w) (stdout w)
    (VNodeParticles_default w) (RootVNodeParticles_default w) (rng w) n.

(** The attributes of the one agent. *)
Definition the_belief (w : World) : val := agent_belief (agent w).
Definition the_init_belief (w : World) : val := agent_init_belief (agent w).
Definition the_history (w : World) : History := agent_history (agent w).
Definition the_tree (w : World) : option (option loc) := agent_tree (agent w).

(** ** Computations *)

Definition M (A : Type) : Type := World -> outcome World A.

Definition ret {A} (a : A) : M A := fun w => Ok a w.
Definition raise {A} (e : exn) : M A := fun w => Raise e w.
Definition bind {A B} (c : M A) (k : A -> M B) : M B := fun w =>
  match c w with
  | Ok a w' => k a w'
  | Raise e w' => Raise e w'
  | OutOfFuel => OutOfFuel
  end.

Notation "x <- c ;; k" := (bind c (fun x => k))
  (at level 100, c at next level, right associativity).
Notation "c ;;; k" := (bind c (fun _ => k))
  (at level 100, right associativity).

Definition get {A} (f : World -> A) : M A := fun w => Ok (f w) w.
Definition modify (f : World -> World) : M unit := fun w => Ok tt (f w).

(** [print(s)] *)
Definition print (s : string) : M unit :=
  modify (fun w => set_stdout (stdout w ++ [s]) w).

(** Reading an object through a reference. *)
Definition deref {A} (store : World -> list A) (l : loc) : M A := fun w =>
  match store w !! l with
  | Some o => Ok o w
  | None => Raise dangling w
  end.

(** Creating an object: the new reference is the next free one. *)
Definition new_belief (o : belief_obj) : M val := fun w =>
  Ok (VBelief (length (beliefs w))) (set_beliefs (beliefs w ++ [o]) w).
Definition new_dict (d : gmap Action loc) : M loc := fun w =>
  Ok (length (dicts w)) (set_dicts (dicts w ++ [d]) w).
Definition new_vnode (n : VNode) : M loc := fun w =>
  Ok (length (vnodes w)) (set_vnodes (vnodes w ++ [n]) w).

(** ** Particles

    Modelled from the spec: [add] appends, [random] draws one element
    (failing on an empty collection), [len] is the size, and [deepcopy]
    builds an independent duplicate. *)

(** [isinstance(v, Particles)] *)
Definition isinstance_Particles (v : val) (w : World) : bool :=
  match v with
  | VBelief l =>
      match beliefs w !! l with Some (Particles _) => true | _ => false end
  | _ => false
  end.

(** [len(v)] *)
Definition len (v : val) : M Z :=
  match v with
  | VNone => raise no_len
  | VHistory h => ret (Z.of_nat (length h))
  | VBelief l =>
      o <- deref beliefs l ;;
      match o with
      | Particles ps => ret (Z.of_nat (length ps))
      | OtherDistribution => raise no_len
      end
  end.

(** [v.particles] *)
Definition particles_of (v : val) : M (list State) :=
  match v with
  | VBelief l =>
      o <- deref beliefs l ;;
      match o with
      | Particles ps => ret ps
      | OtherDistribution => raise (no_attribute "particles")
      end
  | _ => raise (no_attribute "particles")
  end.

(** [v.random()]: the generator's next draw picks the index. *)
Definition random (v : val) : M State :=
  match v with
  | VBelief l =>
      o <- deref beliefs l ;;
      match o with
      | Particles ps =>
          fun w =>
            match ps !! (rng w (rng_pos w) `mod` length ps)%nat with
            | Some s => Ok s (set_rng_pos (S (rng_pos w)) w)
            | None => Raise empty_choice w
            end
      | OtherDistribution => raise (no_attribute "random")
      end
  | _ => raise (no_attribute "random")
  end.

(** [v.add(s)] *)
Definition add (v : val) (s : State) : M unit :=
  match v with
  | VBelief l =>
      o <- deref beliefs l ;;
      match o with
      | Particles ps =>
          modify (fun w => set_beliefs (<[l := Particles (ps ++ [s])]> (beliefs w)) w)
      | OtherDistribution => raise (no_attribute "add")
      end
  | _ => raise (no_attribute "add")
  end.

(** [copy.deepcopy(s)] on a state, which is a value. *)
Definition deepcopy_state (s : State) : State := s.

(** [copy.deepcopy(v)]: [None] and tuples of values are their own copies, a
    belief object is duplicated into a new object. *)
Definition deepcopy (v : val) : M val :=
  match v with
  | VNone => ret VNone
  | VHistory h => ret (VHistory h)
  | VBelief l => o <- deref beliefs l ;; new_belief o
  end.

(** ** Tree nodes *)

(** [VNodeParticles.__init__]: the fields of the new instance.  [belief] is
    [None] when the caller leaves the argument out; the default is the one
    object bound when the class was defined, not a new one. *)
Definition VNodeParticles_init (num_visits : Z) (value : float)
    (belief : option val) : M VNode :=
  b <- match belief with
       | Some b => ret b
       | None => get VNodeParticles_default
       end ;;
  d <- new_dict ∅ ;;
  ret (mkVNode num_visits value b d None).

(** [VNodeParticles(num_visits, value, belief)] *)
Definition VNodeParticles (num_visits : Z) (value : float)
    (belief : option val) : M loc :=
  self <- VNodeParticles_init num_visits value belief ;;
  new_vnode self.

(** [RootVNodeParticles(num_visits, value, history, belief)] *)
Definition RootVNodeParticles (num_visits : Z) (value : float)
    (history : val) (belief : option val) : M loc :=
  b <- match belief with
       | Some b => ret b
       | None => get RootVNodeParticles_default
       end ;;
  self <- VNodeParticles_init num_visits value (Some b) ;;
  new_vnode (with_history history self).

(** [node.belief = b] and [node.children = d] *)
Definition set_belief_attr (node : loc) (b : val) : M unit :=
  v <- deref vnodes node ;;
  modify (fun w => set_vnodes (<[node := with_belief b v]> (vnodes w)) w).
Definition set_children_attr (node : loc) (d : loc) : M unit :=
  v <- deref vnodes node ;;
  modify (fun w => set_vnodes (<[node := with_children d v]> (vnodes w)) w).

(** [RootVNodeParticles.from_vnode]: the new root takes the belief and the
    children of [vnode] by reference. *)
Definition from_vnode (vnode : option loc) (history : val) : M loc :=
  match vnode with
  | None => raise (no_attribute "num_visits")
  | Some vnode =>
      v <- deref vnodes vnode ;;
      rootnode <- RootVNodeParticles (num_visits v) (value v) history
                    (Some (belief v)) ;;
      v <- deref vnodes vnode ;;
      set_children_attr rootnode (children v) ;;;
      ret rootnode
  end.

(** Modelled from the spec: indexing a node of the base engine.  A node
    indexed by a key it has no entry for answers [None], the value that
    also marks a never-simulated observation. *)
Definition VNode_getitem (node : loc) (a : Action) : M (option loc) :=
  v <- deref vnodes node ;;
  d <- deref dicts (children v) ;;
  ret (d !! a).
Definition QNode_getitem (node : loc) (o : Observation) : M (option loc) :=
  q <- deref qnodes node ;;
  ret (mjoin (q_children q !! o)).

(** [agent.tree[a][o]] *)
Definition tree_getitem2 (a : Action) (o : Observation) : M (option loc) :=
  t <- get the_tree ;;
  match t with
  | None => raise (no_attribute "tree")
  | Some None => raise not_subscriptable
  | Some (Some root) =>
      q <- VNode_getitem root a ;;
      match q with
      | None => raise not_subscriptable
      | Some q => QNode_getitem q o
      end
  end.

(** Modelled from the spec: the agent's setters. *)
Definition put_belief (b : val) (w : World) : World :=
  set_agent (mkAgent b (the_init_belief w) (the_history w) (the_tree w)) w.
Definition put_tree (t : option loc) (w : World) : World :=
  set_agent
    (mkAgent (the_belief w) (the_init_belief w) (the_history w) (Some t)) w.
Definition set_belief (b : val) : M unit := modify (put_belief b).
Definition set_tree (t : option loc) : M unit := modify (put_tree t).

(** ** The planner *)

(** The warning of [update] when the agent has no tree. *)
Definition no_tree_warning : string :=
  "Warning: agent does not have tree. Have you planned yet?".

(** The diagnostic notice of [_particle_reinvigoration]. *)
Definition reinvigoration_notice (missing : Z) : string :=
  "Particle reinvigoration for " +:+ pretty missing +:+ " particles".

(** The attributes of [self] that this class reads. *)
Record Planner := mkPlanner {
  _num_visits_init : Z;
  _value_init : float
}.

(** The methods of the base class [POUCT] that this class calls.
    [POUCT__expand_vnode] receives the belief placed under the key
    ["belief"] of its [action_prior_args]. *)
Variable POUCT_plan : Planner -> PriorArgs -> M Action.
Variable POUCT__simulate :
  Planner -> State -> History -> option loc -> option loc ->
  option Observation -> Z -> M float.
Variable POUCT__expand_vnode :
  Planner -> loc -> History -> option State -> val -> M unit.

Variable self : Planner.

(** [POMCP.plan] *)
Definition plan (action_prior_args : PriorArgs) : M Action :=
  b <- get the_belief ;;
  is_particles <- get (isinstance_Particles b) ;;
  if negb is_particles then raise representation_mismatch
  else POUCT_plan self action_prior_args.

(** The [while] loop of [_particle_reinvigoration].  Each round draws from
    [particles], the caller's object, and adds to [new_particles]. *)
Fixpoint reinvigoration_loop (fuel : nat) (particles new_particles : val)
    (num_particles : Z) (state_transform_func : option (State -> State))
    : M unit :=
  n <- len new_particles ;;
  if n <? num_particles then
    match fuel with
    | O => fun _ => OutOfFuel
    | S fuel' =>
        drawn <- random particles ;;
        let next_state := deepcopy_state drawn in
        let next_state :=
          match state_transform_func with
          | Some f => f next_state
          | None => next_state
          end in
        add new_particles next_state ;;;
        reinvigoration_loop fuel' particles new_particles num_particles
          state_transform_func
    end
  else ret tt.

(** [POMCP._particle_reinvigoration].  The loop is given one round per
    missing particle; [settled_loop] shows that it never needs more, and
    [reinvigoration_loop_more_fuel] that more would change nothing. *)
Definition _particle_reinvigoration (particles : val) (real_action : Action)
    (real_observation : Observation) (num_particles : Z)
    (state_transform_func : option (State -> State)) : M val :=
  new_particles <- deepcopy particles ;;
  n <- len new_particles ;;
  if n =? 0 then raise particle_deprivation
  else
    n <- len new_particles ;;
    if n >? num_particles then ret new_particles
    else
      n <- len new_particles ;;
      print (reinvigoration_notice (num_particles - n)) ;;;
      reinvigoration_loop (Z.to_nat (num_particles - n)) particles
        new_particles num_particles state_transform_func ;;;
      ret new_particles.

(** [POMCP._expand_vnode] *)
Definition _expand_vnode (vnode : loc) (history : History)
    (state : option State) (action_prior_args : PriorArgs) : M unit :=
  v <- deref vnodes vnode ;;
  POUCT__expand_vnode self vnode history state (belief v).

(** [POMCP.update], up to and including the assignment of the new root to
    [agent.tree].  The result tells whether the method goes on. *)
Definition update_transplant (real_action : Action)
    (real_observation : Observation) : M bool :=
  b <- get the_belief ;;
  is_particles <- get (isinstance_Particles b) ;;
  if negb is_particles then raise representation_mismatch
  else
    t <- get the_tree ;;
    match t with
    | None =>
        print no_tree_warning ;;;
        ret false
    | Some _ =>
        child <- tree_getitem2 real_action real_observation ;;
        match child with
        | None => raise particle_deprivation
        | Some _ =>
            child <- tree_getitem2 real_action real_observation ;;
            h <- get the_history ;;
            root <- from_vnode child (VHistory h) ;;
            set_tree (Some root) ;;;
            ret true
        end
    end.

(** [POMCP.update], continued: the new root's belief is reinvigorated to the
    size of the agent's initial belief and becomes the agent's belief. *)
Definition update_reinvigorate (real_action : Action)
    (real_observation : Observation)
    (state_transform_func : option (State -> State)) : M unit :=
  t <- get the_tree ;;
  tree_belief <-
    match t with
    | Some (Some root) => v <- deref vnodes root ;; ret (belief v)
    | Some None => raise (no_attribute "belief")
    | None => raise (no_attribute "tree")
    end ;;
  ib <- get the_init_belief ;;
  ps <- particles_of ib ;;
  b <- _particle_reinvigoration tree_belief real_action real_observation
         (Z.of_nat (length ps)) state_transform_func ;;
  set_belief b.

(** [POMCP.update], the final test [agent.tree is None] and its two
    branches.  The first branch passes the copied belief where the class
    expects the history, and the history where it expects the belief, as the
    source does. *)
Definition update_finish (action_prior_args : PriorArgs) : M unit :=
  t <- get the_tree ;;
  match t with
  | Some None =>
      b <- get the_belief ;;
      b' <- deepcopy b ;;
      h <- get the_history ;;
      root <- RootVNodeParticles (_num_visits_init self) (_value_init self)
                b' (Some (VHistory h)) ;;
      set_tree (Some root) ;;;
      h <- get the_history ;;
      _expand_vnode root h None action_prior_args
  | Some (Some root) =>
      b <- get the_belief ;;
      b' <- deepcopy b ;;
      set_belief_attr root b'
  | None => raise (no_attribute "tree")
  end.

(** [POMCP.update] *)
Definition update (real_action : Action) (real_observation : Observation)
    (action_prior_args : PriorArgs)
    (state_transform_func : option (State -> State)) : M unit :=
  go_on <- update_transplant real_action real_observation ;;
  if go_on : bool then
    update_reinvigorate real_action real_observation state_transform_func ;;;
    update_finish action_prior_args
  else ret tt.

(** [POMCP._sample_belief] *)
Definition _sample_belief : M State :=
  t <- get the_tree ;;
  match t with
  | Some (Some root) => v <- deref vnodes root ;; random (belief v)
  | Some None => raise (no_attribute "belief")
  | None => raise (no_attribute "tree")
  end.

(** [POMCP._simulate] *)
Definition _simulate (state : State) (history : History) (root : option loc)
    (parent : option loc) (observation : option Observation) (depth : Z)
    (action_prior_args : PriorArgs) : M float :=
  total_reward <- POUCT__simulate self state history root parent observation
                    depth ;;
  if depth =? 1 then
    match root with
    | Some r => v <- deref vnodes r ;; add (belief v) state ;;; ret total_reward
    | None => ret total_reward
    end
  else ret total_reward.

(** [POMCP._VNode]; [agent] tells whether the agent is passed. *)
Definition _VNode (agent : bool) (root : bool) : M loc :=
  if root then
    if agent then
      h <- get the_history ;;
      b <- get the_belief ;;
      b' <- deepcopy b ;;
      RootVNodeParticles (_num_visits_init self) (_value_init self)
        (VHistory h) (Some b')
    else raise (no_attribute "history")
  else
    if agent then
      b <- get the_belief ;;
      b' <- deepcopy b ;;
      VNodeParticles (_num_visits_init self) (_value_init self) (Some b')
    else
      b <- new_belief (Particles []) ;;
      VNodeParticles (_num_visits_init self) (_value_init self) (Some b).

(** ** Statements' vocabulary *)

(** What [state_transform_func] makes of a drawn state. *)
Definition transformed (state_transform_func : option (State -> State))
    (s : State) : State :=
  match state_transform_func with
  | Some f => f s
  | None => s
  end.

(** The states that [n] successive calls of [random] draw from a collection
    [ps], starting at draw number [pos] of the generator. *)
Definition draws (rng : nat -> nat) (pos : nat) (ps : list State) (n : nat)
    : list State :=
  omap (fun i => ps !! (rng i `mod` length ps)%nat) (seq pos n).

(** The object a reference to a belief names. *)
Definition particles_at (w : World) (v : val) : option (list State) :=
  match v with
  | VBelief l =>
      match beliefs w !! l with
      | Some (Particles ps) => Some ps
      | _ => None
      end
  | _ => None
  end.

(** The store after [n] particles were drawn and the object at [l] became
    the collection [xs]. *)
Definition filled (w : World) (l : loc) (xs : list State) (n : nat) : World :=
  set_rng_pos (rng_pos w + n)
    (set_beliefs (<[l := Particles xs]> (beliefs w)) w).

(** The action node under the current root for an action, and the slot it
    holds for an observation: [Some None] is the never-simulated marker,
    [Some (Some c)] a child node. *)
Definition root_action_node (w : World) (a : Action) : option QNode :=
  match the_tree w with
  | Some (Some root) =>
      v ← vnodes w !! root;
      d ← dicts w !! children v;
      q ← d !! a;
      qnodes w !! q
  | _ => None
  end.

Definition child_slot (w : World) (a : Action) (o : Observation)
    : option (option loc) :=
  q ← root_action_node w a; q_children q !! o.

(** An exception other than the representation mismatch. *)
Definition benign (e : exn) : Prop := e <> representation_mismatch.

(** The agent's tree handle, its history and the nodes are the same in two
    stores. *)
Definition tree_kept (w w' : World) : Prop :=
  the_tree w' = the_tree w /\ the_history w' = the_history w
  /\ vnodes w' = vnodes w.

(** An outcome that came to an end, kept the tree, and did not raise the
    representation mismatch. *)
Definition settled {A} (w : World) (o : outcome World A) : Prop :=
  match o with
  | Ok _ w' => tree_kept w w'
  | Raise e w' => tree_kept w w' /\ benign e
  | OutOfFuel => False
  end.

(** An outcome that came to an end and did not raise the representation
    mismatch. *)
Definition concluded {A} (o : outcome World A) : Prop :=
  match o with
  | Ok _ _ => True
  | Raise e _ => benign e
  | OutOfFuel => False
  end.

(** The store after the child node [v] of the root was made the new root:
    one new dict (the one the constructor builds and [from_vnode] then
    replaces), one new node that has the fields of [v] and the agent's
    history, and the agent's tree handle on it. *)
Definition transplanted (w : World) (v : VNode) : World :=
  put_tree (Some (length (vnodes w)))
    (set_vnodes
       (vnodes w ++ [with_history (VHistory (the_history w)) v])
       (set_dicts (dicts w ++ [∅]) w)).

(** The node under the agent's tree handle, the particles of its belief,
    and the number of particles of the agent's initial belief. *)
Definition root_node (w : World) : option VNode :=
  match the_tree w with
  | Some (Some root) => vnodes w !! root
  | _ => None
  end.

Definition root_particles (w : World) : option (list State) :=
  v ← root_node w; particles_at w (belief v).

Definition target_count (w : World) : option Z :=
  ps ← particles_at w (the_init_belief w); Some (Z.of_nat (length ps)).

Definition root_belief_size (w : World) : option Z :=
  ps ← root_particles w; Some (Z.of_nat (length ps)).

(** The store after a node with belief [b] was built: a new dict and a new
    node. *)
Definition node_built (w : World) (n : Z) (x : float) (b : val) : World :=
  set_vnodes (vnodes w ++ [mkVNode n x b (length (dicts w)) None])
    (set_dicts (dicts w ++ [∅]) w).

(** The particles of the belief of a node. *)
Definition node_particles (w : World) (node : loc) : option (list State) :=
  v ← vnodes w !! node; particles_at w (belief v).

(** A client of [VNodeParticles]: it builds two nodes without a belief
    argument and adds a state to the belief of the first. *)
Definition two_nodes_then_add (n : Z) (x : float) (s : State)
    : M (loc * loc) :=
  n1 <- VNodeParticles n x None ;;
  n2 <- VNodeParticles n x None ;;
  v1 <- deref vnodes n1 ;;
  add (belief v1) s ;;;
  ret (n1, n2).

(** The same client of [_VNode], called without an agent. *)
Definition two_VNodes_then_add (s : State) : M (loc * loc) :=
  n1 <- _VNode false false ;;
  n2 <- _VNode false false ;;
  v1 <- deref vnodes n1 ;;
  add (belief v1) s ;;;
  ret (n1, n2).

(** The store in which a computation returned. *)
Definition returned {A} (o : outcome World A) : option World :=
  match o with
  | Ok _ w => Some w
  | _ => None
  end.

(** The store after [_particle_reinvigoration] has run on a collection [ps]
    that is not empty: one new object, which holds [ps] when [ps] is larger
    than the target [N], and otherwise [ps] followed by the transformed
    draws from [ps] that were missing, in which case the notice is printed
    and the generator has advanced. *)
Definition reinvigorated (w : World) (ps : list State) (N : Z)
    (state_transform_func : option (State -> State)) : World :=
  let k := Z.of_nat (length ps) in
  if k >? N then set_beliefs (beliefs w ++ [Particles ps]) w
  else
    let n := Z.to_nat (N - k) in
    set_rng_pos (rng_pos w + n)
      (set_stdout (stdout w ++ [reinvigoration_notice (N - k)])
         (set_beliefs
            (beliefs w ++
               [Particles (ps ++ (transformed state_transform_func <$>
                                    draws (rng w) (rng_pos w) ps n))]) w)).

(** The particles that [_particle_reinvigoration] returns for a collection
    [ps] that is not empty, a target [N] and a generator at draw [pos]. *)
Definition reinvigorated_particles (rng : nat -> nat) (pos : nat)
    (ps : list State) (N : Z)
    (state_transform_func : option (State -> State)) : list State :=
  if Z.of_nat (length ps) >? N then ps
  else ps ++ (transformed state_transform_func <$>
                draws rng pos ps (Z.to_nat (N - Z.of_nat (length ps)))).

(** The store after a root with history [h] and belief [b] was built: a new
    dict and a new node. *)
Definition root_built (w : World) (n : Z) (x : float) (h b : val) : World :=
  set_vnodes (vnodes w ++ [mkVNode n x b (length (dicts w)) (Some h)])
    (set_dicts (dicts w ++ [∅]) w).

(** The slot that a node, root or not, holds for an action and an
    observation. *)
Definition node_slot (w : World) (node : loc) (a : Action) (o : Observation)
    : option (option loc) :=
  v ← vnodes w !! node;
  d ← dicts w !! children v;
  q ← d !! a;
  qn ← qnodes w !! q;
  q_children qn !! o.

(** A client of [RootVNodeParticles] and [VNodeParticles]: it builds two
    roots and a node without a belief argument and adds a state to the
    belief of the first root. *)
Definition two_roots_then_add (n : Z) (x : float) (h : val) (s : State)
    : M (loc * loc * loc) :=
  r1 <- RootVNodeParticles n x h None ;;
  r2 <- RootVNodeParticles n x h None ;;
  n3 <- VNodeParticles n x None ;;
  v1 <- deref vnodes r1 ;;
  add (belief v1) s ;;;
  ret (r1, r2, n3).

End POMCP.

(** ** A small planning session

    States, actions and observations are numbers.  The store holds the two
    default beliefs, the agent's belief and initial belief of two
    particles, and a tree: under action 0 the root has a child with one
    particle for observation 0, the never-simulated marker for observation
    1, and a child with three particles for observation 2.  The agent's
    history ends with action 0 and the observation given. *)

Definition ex_self : @Planner Z := mkPlanner 1 0.

Definition ex_plan (_ : @Planner Z) (_ : unit)
    : @M nat nat nat Z _ _ _ _ nat :=
  fun w => Ok 0%nat w.

Definition ex_simulate (_ : @Planner Z) (_ : nat) (_ : list (nat * nat))
    (_ _ : option loc) (_ : option nat) (_ : Z)
    : @M nat nat nat Z _ _ _ _ Z :=
  fun w => Ok 7 w.

Definition ex_expand_vnode (_ : @Planner Z) (_ : loc) (_ : list (nat * nat))
    (_ : option nat) (_ : @val nat nat) : @M nat nat nat Z _ _ _ _ unit :=
  fun w => Ok tt w.

Definition ex_world (belief : @val nat nat) (o : nat)
    (tree : option (option loc)) : @World nat nat nat Z _ _ _ _ :=
  mkWorld
    [Particles []; Particles []; Particles [1; 2]%nat; Particles [1; 2]%nat;
     Particles [1; 2]%nat; Particles [5]%nat; Particles [5; 6; 7]%nat;
     Particles []; OtherDistribution]
    [mkVNode 4 0 (VBelief 4) 0%nat (Some (VHistory []));
     mkVNode 2 0 (VBelief 5) 1%nat None;
     mkVNode 3 0 (VBelief 6) 2%nat None]
    [{[0%nat := 0%nat]}; ∅; ∅]
    [mkQNode 4 0
       (<[0%nat := Some 1%nat]>
          (<[1%nat := None]> (<[2%nat := Some 2%nat]> ∅)))]
    (mkAgent belief (VBelief 3) [(0, o)%nat] tree)
    []
    (VBelief 0) (VBelief 1)
    (fun i => i) 0.

(** The session after a [plan]: particle belief, tree in place. *)
Definition ex_planned (o : nat) : @World nat nat nat Z _ _ _ _ :=
  ex_world (VBelief 2) o (Some (Some 0%nat)).

(** The session after a [plan] in which no simulated trajectory reached
    the child for observation 0: its belief, the object at reference 5, is
    empty. *)
Definition ex_starved : @World nat nat nat Z _ _ _ _ :=
  set_beliefs (<[5%nat := Particles []]> (beliefs (ex_planned 0)))
    (ex_planned 0).

Section Proofs.
Context {State Action Observation float PriorArgs : Type}.
Context `{Countable Action, Countable Observation}.

Local Abbreviation World := (@World State Action Observation float _ _ _ _).
Local Abbreviation M := (@M State Action Observation float _ _ _ _).
Local Abbreviation val := (@val Action Observation).
Local Abbreviation History := (list (Action * Observation)).
Implicit Types (w : World) (l : loc) (ps qs : list State).

Lemma len_particles w l ps :
  beliefs w !! l = Some (Particles ps) ->
  len (VBelief l) w = Ok (Z.of_nat (length ps)) w.
Proof. intros Hl. unfold len, bind, deref. rewrite Hl. reflexivity. Qed.

Lemma add_particles w l ps s :
  beliefs w !! l = Some (Particles ps) ->
  add (VBelief l) s w
  = Ok tt (set_beliefs (<[l := Particles (ps ++ [s])]> (beliefs w)) w).
Proof. intros Hl. unfold add, bind, deref. rewrite Hl. reflexivity. Qed.

Lemma random_particles w l ps s :
  beliefs w !! l = Some (Particles ps) ->
  ps !! (rng w (rng_pos w) `mod` length ps)%nat = Some s ->
  random (VBelief l) w = Ok s (set_rng_pos (S (rng_pos w)) w).
Proof.
  intros Hl Hs. unfold random, bind, deref. rewrite Hl. simpl. rewrite Hs.
  reflexivity.
Qed.

Lemma deepcopy_belief w l o :
  beliefs w !! l = Some o ->
  deepcopy (VBelief l) w
  = Ok (VBelief (length (beliefs w))) (set_beliefs (beliefs w ++ [o]) w).
Proof. intros Hl. unfold deepcopy, bind, deref. rewrite Hl. reflexivity. Qed.

(** A draw from a collection that is not empty succeeds. *)
Lemma pick_nonempty ps (i : nat) :
  ps <> [] -> exists s, ps !! (i `mod` length ps)%nat = Some s /\ s ∈ ps.
Proof.
  intros Hne.
  assert (Hlt : (i `mod` length ps < length ps)%nat).
  { apply Nat.mod_upper_bound. destruct ps; [done | simpl; lia]. }
  destruct (lookup_lt_is_Some_2 _ _ Hlt) as [s Hs].
  exists s. split; [done |]. apply list_elem_of_lookup. eauto.
Qed.

Lemma draws_S rng pos ps n s :
  ps !! (rng pos `mod` length ps)%nat = Some s ->
  draws rng pos ps (S n) = s :: draws rng (S pos) ps n.
Proof. intros Hs. unfold draws. simpl. rewrite Hs. reflexivity. Qed.

Lemma draws_length rng pos ps n :
  ps <> [] -> length (draws rng pos ps n) = n.
Proof.
  intros Hne. revert pos. induction n as [|n IH]; intros pos; [done |].
  destruct (pick_nonempty ps (rng pos) Hne) as (s & Hs & _).
  rewrite (draws_S _ _ _ _ _ Hs). simpl. by rewrite IH.
Qed.

Lemma draws_elem rng pos ps n s :
  s ∈ draws rng pos ps n -> s ∈ ps.
Proof.
  unfold draws. rewrite list_elem_of_omap. intros (i & _ & Hi).
  apply list_elem_of_lookup. eauto.
Qed.

(** Setting an object to the value it has, and drawing nothing, changes
    nothing. *)
Lemma filled_id w l xs :
  beliefs w !! l = Some (Particles xs) -> filled w l xs 0 = w.
Proof.
  intros Hl. destruct w. unfold filled, set_rng_pos, set_beliefs. simpl in *.
  rewrite list_insert_id by done. by rewrite Nat.add_0_r.
Qed.

Lemma reinvigoration_loop_unfold fuel (p np : val) (N : Z) f :
  @reinvigoration_loop State Action Observation float _ _ _ _ fuel p np N f
  = bind (len np) (fun n =>
      if n <? N then
        match fuel with
        | O => fun _ => OutOfFuel
        | S fuel' =>
            bind (random p) (fun drawn =>
              bind (add np (transformed f drawn)) (fun _ =>
                reinvigoration_loop fuel' p np N f))
        end
      else ret tt).
Proof. destruct fuel; reflexivity. Qed.

(** A loop that came to an end with some fuel does the same with more. *)
Lemma reinvigoration_loop_more_fuel fuel fuel' (p np : val) (N : Z) f w :
  (fuel <= fuel')%nat ->
  reinvigoration_loop fuel p np N f w <> OutOfFuel ->
  reinvigoration_loop fuel' p np N f w = reinvigoration_loop fuel p np N f w.
Proof.
  revert fuel' w. induction fuel as [|fuel IH]; intros fuel' w Hle;
    rewrite (reinvigoration_loop_unfold fuel'),
      (reinvigoration_loop_unfold _ p np N f);
    unfold bind;
    (destruct (len np w) as [n w1|e w1|]; [| done | done]);
    (destruct (n <? N); [| done]).
  - intros Hend. by destruct Hend.
  - destruct fuel' as [|fuel']; [lia |].
    destruct (random p w1) as [s w2|e w2|]; [| done | done].
    destruct (add np (transformed f s) w2) as [[] w3|e w3|]; [| done | done].
    apply IH. lia.
Qed.

(** The loop on two different objects: as many rounds as particles are
    missing, each adding the transformed draw from the first object to the
    second. *)
Lemma reinvigoration_loop_spec fuel w l l' ps qs (N : Z) f :
  l <> l' ->
  beliefs w !! l = Some (Particles ps) -> ps <> [] ->
  beliefs w !! l' = Some (Particles qs) ->
  (Z.to_nat (N - Z.of_nat (length qs)) <= fuel)%nat ->
  reinvigoration_loop fuel (VBelief l) (VBelief l') N f w
  = Ok tt (filled w l'
             (qs ++ (transformed f <$>
                       draws (rng w) (rng_pos w) ps
                         (Z.to_nat (N - Z.of_nat (length qs)))))
             (Z.to_nat (N - Z.of_nat (length qs)))).
Proof.
  intros Hne Hl Hps. revert w qs Hl.
  induction fuel as [|fuel IH]; intros w qs Hl Hl' Hfuel.
  - rewrite reinvigoration_loop_unfold.
    unfold bind. rewrite (len_particles _ _ _ Hl').
    replace (Z.to_nat (N - Z.of_nat (length qs))) with 0%nat by lia.
    assert ((Z.of_nat (length qs) <? N) = false) as -> by lia.
    unfold ret, draws. simpl. rewrite app_nil_r.
    by rewrite filled_id.
  - rewrite reinvigoration_loop_unfold.
    unfold bind at 1. rewrite (len_particles _ _ _ Hl').
    destruct (Z.ltb_spec (Z.of_nat (length qs)) N) as [Hlt|Hge].
    + destruct (pick_nonempty ps (rng w (rng_pos w)) Hps) as (s & Hs & _).
      unfold bind at 1. rewrite (random_particles _ _ _ _ Hl Hs).
      unfold bind at 1.
      assert (Hl'2 : beliefs (set_rng_pos (S (rng_pos w)) w) !! l'
                     = Some (Particles qs)) by (by destruct w).
      rewrite (add_particles _ _ _ _ Hl'2).
      assert (Hlen : (l' < length (beliefs w))%nat)
        by (eapply lookup_lt_Some; eauto).
      rewrite (IH _ (qs ++ [transformed f s])).
      * replace (Z.to_nat (N - Z.of_nat (length qs)))
          with (S (Z.to_nat (N - Z.of_nat (length (qs ++ [transformed f s])))))
          by (rewrite length_app; simpl; lia).
        rewrite (draws_S _ _ _ _ _ Hs). destruct w.
        unfold filled, set_rng_pos, set_beliefs. simpl.
        rewrite list_insert_insert_eq, <- app_assoc. simpl.
        do 2 f_equal. lia.
      * destruct w; simpl in *. by rewrite list_lookup_insert_ne.
      * destruct w; simpl in *. by rewrite list_lookup_insert_eq.
      * rewrite length_app. simpl. lia.
    + replace (Z.to_nat (N - Z.of_nat (length qs))) with 0%nat by lia.
      unfold ret, draws. simpl. rewrite app_nil_r. by rewrite filled_id.
Qed.

(** [_particle_reinvigoration] on a collection that is not empty returns,
    and [reinvigorated] is the store it leaves. *)
Lemma reinvigoration_spec w l ps (a : Action) (o : Observation) (N : Z) f :
  beliefs w !! l = Some (Particles ps) -> ps <> [] ->
  _particle_reinvigoration (VBelief l) a o N f w
  = Ok (VBelief (length (beliefs w))) (reinvigorated w ps N f).
Proof.
  intros Hl Hps. unfold _particle_reinvigoration.
  unfold bind at 1. rewrite (deepcopy_belief _ _ _ Hl).
  assert (Hnew : beliefs (set_beliefs (beliefs w ++ [Particles ps]) w)
                   !! length (beliefs w) = Some (Particles ps)).
  { destruct w; simpl. by rewrite lookup_app_r, Nat.sub_diag. }
  unfold bind at 1. rewrite (len_particles _ _ _ Hnew).
  assert (Hk : (0 < length ps)%nat) by (destruct ps; [done | simpl; lia]).
  assert ((Z.of_nat (length ps) =? 0) = false) as -> by lia.
  unfold bind at 1. rewrite (len_particles _ _ _ Hnew).
  unfold reinvigorated.
  destruct (Z.of_nat (length ps) >? N) eqn:Hgt; [reflexivity |].
  unfold bind at 1. rewrite (len_particles _ _ _ Hnew).
  unfold bind at 1, print at 1, modify at 1.
  assert (Hlt : (l < length (beliefs w))%nat) by (eapply lookup_lt_Some; eauto).
  unfold bind at 1.
  rewrite (reinvigoration_loop_spec _ _ l (length (beliefs w)) ps ps).
  - unfold ret, filled, reinvigoration_notice. destruct w; simpl.
    rewrite insert_app_r_alt by lia. rewrite Nat.sub_diag. reflexivity.
  - lia.
  - destruct w; simpl in *. by rewrite lookup_app_l.
  - done.
  - destruct w; simpl in *. by rewrite lookup_app_r, Nat.sub_diag.
  - lia.
Qed.

Lemma draws_lookup rng pos ps n (i : nat) :
  (i < n)%nat ->
  draws rng pos ps n !! i = ps !! (rng (pos + i)%nat `mod` length ps)%nat.
Proof.
  destruct ps as [|p ps].
  { intros _. unfold draws. rewrite lookup_nil.
    apply eq_None_not_Some. intros [s Hs].
    apply list_elem_of_lookup_2, list_elem_of_omap in Hs.
    destruct Hs as (? & _ & Hs). by rewrite lookup_nil in Hs. }
  revert pos i. induction n as [|n IH]; intros pos i Hi; [lia |].
  destruct (pick_nonempty (p :: ps) (rng pos)) as (s & Hs & _); [done |].
  rewrite (draws_S _ _ _ _ _ Hs). destruct i as [|i].
  - simpl lookup at 1. by rewrite Nat.add_0_r, Hs.
  - simpl lookup at 1. rewrite IH by lia. do 3 f_equal. lia.
Qed.

Lemma particles_at_new w o :
  beliefs (set_beliefs (beliefs w ++ [o]) w) !! length (beliefs w) = Some o.
Proof. destruct w; simpl. by rewrite lookup_app_r, Nat.sub_diag. Qed.

Lemma particles_at_add_same w l ps s :
  beliefs w !! l = Some (Particles ps) ->
  particles_at (set_beliefs (<[l := Particles (ps ++ [s])]> (beliefs w)) w)
    (VBelief l) = Some (ps ++ [s]).
Proof.
  intros Hl. apply lookup_lt_Some in Hl. unfold particles_at.
  destruct w; simpl in *. by rewrite list_lookup_insert_eq.
Qed.

Lemma particles_at_add_other w l l' o :
  l <> l' ->
  particles_at (set_beliefs (<[l := o]> (beliefs w)) w) (VBelief l')
  = particles_at w (VBelief l').
Proof.
  intros Hne. unfold particles_at.
  destruct w; simpl in *. by rewrite list_lookup_insert_ne.
Qed.

Lemma reinvigorated_new w ps N f :
  particles_at (reinvigorated w ps N f) (VBelief (length (beliefs w)))
  = Some (if Z.of_nat (length ps) >? N then ps
          else ps ++ (transformed f <$>
                        draws (rng w) (rng_pos w) ps
                          (Z.to_nat (N - Z.of_nat (length ps))))).
Proof.
  unfold reinvigorated, particles_at.
  destruct (Z.of_nat (length ps) >? N); destruct w; simpl;
    by rewrite lookup_app_r, Nat.sub_diag.
Qed.

Lemma reinvigorated_old w ps N f l :
  (l < length (beliefs w))%nat ->
  beliefs (reinvigorated w ps N f) !! l = beliefs w !! l.
Proof.
  intros Hl. unfold reinvigorated.
  destruct (Z.of_nat (length ps) >? N); destruct w; simpl in *;
    by rewrite lookup_app_l.
Qed.

(** The copy of an empty collection is empty, and the first test raises. *)
Lemma reinvigoration_of_nothing w l (a : Action) (o : Observation) (N : Z) f :
  beliefs w !! l = Some (Particles []) ->
  _particle_reinvigoration (VBelief l) a o N f w
  = Raise particle_deprivation (set_beliefs (beliefs w ++ [Particles []]) w).
Proof.
  intros Hl. unfold _particle_reinvigoration.
  unfold bind at 1. rewrite (deepcopy_belief _ _ _ Hl).
  unfold bind at 1. rewrite (len_particles _ _ []) by apply particles_at_new.
  reflexivity.
Qed.

(** C4.  For a collection [ps] of k > 0 particles and a target N > k,
    [_particle_reinvigoration] returns a new collection of exactly N
    particles: the k particles of [ps], followed by N - k new ones; the
    i-th new one is the (transformed, when a transform is given) element
    of the original [ps] at the index that the generator's next draw picks
    among the k original positions, so the same element may be drawn
    again.  The caller's collection is left as it was. *)
Theorem reinvigoration_fills_to_target w l ps (a : Action) (o : Observation)
    (N : Z) f :
  beliefs w !! l = Some (Particles ps) ->
  ps <> [] ->
  Z.of_nat (length ps) < N ->
  exists w' new,
    _particle_reinvigoration (VBelief l) a o N f w
      = Ok (VBelief (length (beliefs w))) w'
    /\ particles_at w' (VBelief (length (beliefs w))) = Some (ps ++ new)
    /\ Z.of_nat (length (ps ++ new)) = N
    /\ Z.of_nat (length new) = N - Z.of_nat (length ps)
    /\ (forall i : nat, (i < length new)%nat ->
          exists s,
            ps !! (rng w (rng_pos w + i)%nat `mod` length ps)%nat = Some s
            /\ new !! i = Some (transformed f s))
    /\ (forall s', s' ∈ new -> exists s, s ∈ ps /\ s' = transformed f s)
    /\ particles_at w' (VBelief l) = Some ps.
Proof.
  intros Hl Hps Hlt.
  set (n := Z.to_nat (N - Z.of_nat (length ps))).
  exists (reinvigorated w ps N f),
    (transformed f <$> draws (rng w) (rng_pos w) ps n).
  assert (Hgt : (Z.of_nat (length ps) >? N) = false) by lia.
  assert (Hn : length (transformed f <$> draws (rng w) (rng_pos w) ps n) = n).
  { by rewrite length_fmap, draws_length. }
  split; [by apply reinvigoration_spec |].
  split; [by rewrite reinvigorated_new, Hgt |].
  split; [rewrite length_app, Hn; lia |].
  split; [rewrite Hn; lia |].
  split; [| split].
  - intros i Hi. rewrite Hn in Hi.
    destruct (pick_nonempty ps (rng w (rng_pos w + i)%nat) Hps) as (s & Hs & _).
    exists s. split; [done |].
    by rewrite list_lookup_fmap, draws_lookup, Hs.
  - intros s' Hs'. apply list_elem_of_fmap in Hs' as (s & -> & Hs).
    exists s. split; [by eapply draws_elem | done].
  - unfold particles_at. rewrite reinvigorated_old, Hl; [done |].
    eapply lookup_lt_Some; eauto.
Qed.

(** C6.  For a collection [ps] whose size is at least a positive target N,
    [_particle_reinvigoration] returns a new object that holds exactly
    [ps]: nothing is drawn, no other object is created or changed, and the
    copy is independent, since adding a particle to either of the two
    objects leaves the other as it was. *)
Theorem reinvigoration_keeps_large_belief w l ps (a : Action)
    (o : Observation) (N : Z) f :
  beliefs w !! l = Some (Particles ps) ->
  0 < N ->
  N <= Z.of_nat (length ps) ->
  exists w',
    _particle_reinvigoration (VBelief l) a o N f w
      = Ok (VBelief (length (beliefs w))) w'
    /\ l <> length (beliefs w)
    /\ beliefs w' = beliefs w ++ [Particles ps]
    /\ particles_at w' (VBelief (length (beliefs w))) = Some ps
    /\ particles_at w' (VBelief l) = Some ps
    /\ rng_pos w' = rng_pos w
    /\ (forall s, exists w'',
          add (VBelief (length (beliefs w))) s w' = Ok tt w''
          /\ particles_at w'' (VBelief (length (beliefs w))) = Some (ps ++ [s])
          /\ particles_at w'' (VBelief l) = Some ps)
    /\ (forall s, exists w'',
          add (VBelief l) s w' = Ok tt w''
          /\ particles_at w'' (VBelief l) = Some (ps ++ [s])
          /\ particles_at w'' (VBelief (length (beliefs w))) = Some ps).
Proof.
  intros Hl HN Hge.
  assert (Hps : ps <> []) by (destruct ps; [simpl in Hge; lia | done]).
  assert (Hlt : (l < length (beliefs w))%nat) by (eapply lookup_lt_Some; eauto).
  assert (Hb : beliefs (reinvigorated w ps N f) = beliefs w ++ [Particles ps]).
  { unfold reinvigorated. destruct (Z.of_nat (length ps) >? N) eqn:Hgt.
    - by destruct w.
    - replace (Z.to_nat (N - Z.of_nat (length ps))) with 0%nat by lia.
      unfold draws. simpl. rewrite app_nil_r. by destruct w. }
  assert (Hnew : beliefs (reinvigorated w ps N f) !! length (beliefs w)
                 = Some (Particles ps))
    by (by rewrite Hb, lookup_app_r, Nat.sub_diag).
  assert (Hold : beliefs (reinvigorated w ps N f) !! l = Some (Particles ps))
    by (by rewrite Hb, lookup_app_l).
  exists (reinvigorated w ps N f).
  split; [by apply reinvigoration_spec |].
  split; [lia |]. split; [done |].
  split; [unfold particles_at; by rewrite Hnew |].
  split; [unfold particles_at; by rewrite Hold |].
  split.
  { unfold reinvigorated. destruct (Z.of_nat (length ps) >? N) eqn:Hgt.
    - by destruct w.
    - replace (Z.to_nat (N - Z.of_nat (length ps))) with 0%nat by lia.
      destruct w; simpl. lia. }
  split; intros s; eexists; (split; [by eapply add_particles |]).
  - split; [by apply particles_at_add_same |].
    rewrite particles_at_add_other by lia.
    unfold particles_at; by rewrite Hold.
  - split; [by apply particles_at_add_same |].
    rewrite particles_at_add_other by lia.
    unfold particles_at; by rewrite Hnew.
Qed.

(** C7.  On an empty collection [_particle_reinvigoration] raises the
    particle-deprivation error, whatever the target; the copy it made
    before the test is the only trace it leaves. *)
Theorem reinvigoration_empty_deprivation w l (a : Action) (o : Observation)
    (N : Z) f :
  beliefs w !! l = Some (Particles []) ->
  _particle_reinvigoration (VBelief l) a o N f w
  = Raise particle_deprivation (set_beliefs (beliefs w ++ [Particles []]) w).
Proof. apply reinvigoration_of_nothing. Qed.

(** *** What the operations leave alone *)

Lemma tree_kept_refl w : tree_kept w w.
Proof. by unfold tree_kept. Qed.

Lemma tree_kept_trans w1 w2 w3 :
  tree_kept w1 w2 -> tree_kept w2 w3 -> tree_kept w1 w3.
Proof. unfold tree_kept. intros (-> & -> & ->) (-> & -> & ->). done. Qed.

Lemma benign_no_len : benign no_len.
Proof. intros Heq. vm_compute in Heq. discriminate. Qed.
Lemma benign_not_subscriptable : benign not_subscriptable.
Proof. intros Heq. vm_compute in Heq. discriminate. Qed.
Lemma benign_no_attribute name : benign (no_attribute name).
Proof. done. Qed.
Lemma benign_dangling : benign dangling.
Proof. done. Qed.
Lemma benign_empty_choice : benign empty_choice.
Proof. done. Qed.
Lemma benign_particle_deprivation : benign particle_deprivation.
Proof. done. Qed.

Create HintDb settle.
#[local] Hint Resolve tree_kept_refl benign_no_len benign_not_subscriptable
  benign_no_attribute benign_dangling benign_empty_choice
  benign_particle_deprivation : settle.

Lemma settled_bind {A B} (c : M A) (k : A -> M B) w :
  settled w (c w) ->
  (forall a w1, c w = Ok a w1 -> settled w1 (k a w1)) ->
  settled w (bind c k w).
Proof.
  unfold bind. destruct (c w) as [a w1|e w1|]; simpl; [| done | done].
  intros Hk Hs. specialize (Hs a w1 eq_refl).
  destruct (k a w1); simpl in *; [| destruct Hs |]; eauto using tree_kept_trans.
Qed.

Lemma settled_concluded {A} w (o : outcome World A) :
  settled w o -> concluded o.
Proof. destruct o; simpl; tauto. Qed.

Lemma settled_len w v : settled w (len v w).
Proof.
  destruct v as [|l|h]; simpl; unfold bind, deref, raise, ret;
    repeat case_match; simplify_eq; simpl; repeat split; auto with settle.
Qed.

Lemma settled_particles_of w v : settled w (particles_of v w).
Proof.
  destruct v as [|l|h]; simpl; unfold bind, deref, raise, ret;
    repeat case_match; simplify_eq; simpl; repeat split; auto with settle.
Qed.

Lemma settled_random w v : settled w (random v w).
Proof.
  destruct v as [|l|h]; simpl; unfold bind, deref, raise, ret;
    repeat case_match; simplify_eq; simpl; repeat split; auto with settle.
  all: by destruct w.
Qed.

Lemma settled_add w v s : settled w (add v s w).
Proof.
  destruct v as [|l|h]; simpl; unfold bind, deref, raise, ret, modify;
    repeat case_match; simplify_eq; simpl; repeat split; auto with settle.
  all: by destruct w.
Qed.

Lemma settled_deepcopy w v : settled w (deepcopy v w).
Proof.
  destruct v as [|l|h]; simpl; unfold bind, deref, raise, ret, new_belief;
    repeat case_match; simplify_eq; simpl; repeat split; auto with settle.
  all: by destruct w.
Qed.

Lemma settled_deref {A} (store : World -> list A) l w :
  settled w (deref store l w).
Proof. unfold deref. case_match; simpl; auto with settle. Qed.

Lemma settled_raise {A} e w : benign e -> settled w (@raise _ _ _ _ _ _ _ _ A e w).
Proof. simpl. auto with settle. Qed.

Lemma settled_print w s : settled w (print s w).
Proof. unfold print, modify. simpl. by destruct w. Qed.

Lemma settled_set_belief w v : settled w (set_belief v w).
Proof. unfold set_belief, modify. simpl. by destruct w. Qed.

(** [len] reads the belief objects and changes nothing. *)
Lemma len_Ok_inv w w' v n :
  len v w = Ok n w' ->
  w' = w /\ forall w2, beliefs w2 = beliefs w -> len v w2 = Ok n w2.
Proof.
  destruct v as [|l|h]; simpl; unfold bind, deref, raise, ret.
  - done.
  - destruct (beliefs w !! l) as [[ps|]|] eqn:Hl; simpl;
      [| congruence | congruence].
    intros [= <- <-]. split; [done |]. intros w2 ->. by rewrite Hl.
  - intros [= <- <-]. split; [done | intros; reflexivity].
Qed.

Lemma random_Ok_inv w w' v s :
  random v w = Ok s w' -> w' = set_rng_pos (S (rng_pos w)) w.
Proof.
  destruct v as [|l|h]; simpl; unfold bind, deref, raise; [done | | done].
  repeat case_match; intros; by simplify_eq.
Qed.

Lemma add_Ok_inv w w' v s :
  add v s w = Ok tt w' ->
  exists l qs,
    v = VBelief l /\ beliefs w !! l = Some (Particles qs)
    /\ w' = set_beliefs (<[l := Particles (qs ++ [s])]> (beliefs w)) w.
Proof.
  destruct v as [|l|h]; simpl; unfold bind, deref, raise, modify;
    [done | | done].
  destruct (beliefs w !! l) as [[qs|]|] eqn:Hl; simpl;
    [| congruence | congruence].
  intros [= <-]. eauto.
Qed.

(** The loop in any store: given a round per missing particle it comes to
    an end, since a round that does not raise adds one particle. *)
Lemma settled_loop fuel (p np : val) (N : Z) f w :
  (forall n, len np w = Ok n w -> (Z.to_nat (N - n) <= fuel)%nat) ->
  settled w (reinvigoration_loop fuel p np N f w).
Proof.
  revert w. induction fuel as [|fuel IH]; intros w Hfuel;
    rewrite reinvigoration_loop_unfold;
    (apply settled_bind; [apply settled_len |]);
    intros n w1 Hlen; destruct (len_Ok_inv _ _ _ _ Hlen) as [-> Hlen'];
    specialize (Hfuel n Hlen);
    (destruct (Z.ltb_spec n N); [| apply tree_kept_refl]).
  - lia.
  - apply settled_bind; [apply settled_random |]. intros s w2 Hr.
    apply settled_bind; [apply settled_add |]. intros [] w3 Hadd.
    apply IH. intros n' Hn'.
    apply random_Ok_inv in Hr as ->.
    apply add_Ok_inv in Hadd as (l & qs & -> & Hl & ->).
    assert (Hl0 : beliefs w !! l = Some (Particles qs)) by (by destruct w).
    rewrite (len_particles _ _ _ Hl0) in Hlen. injection Hlen as <-.
    rewrite (len_particles _ _ (qs ++ [transformed f s])) in Hn'.
    + injection Hn' as <-. rewrite length_app. simpl. lia.
    + apply lookup_lt_Some in Hl0. destruct w; simpl in *.
      by rewrite list_lookup_insert_eq.
Qed.

Lemma settled_reinvigoration w (tb : val) (a : Action) (o : Observation)
    (N : Z) f :
  settled w (_particle_reinvigoration tb a o N f w).
Proof.
  unfold _particle_reinvigoration.
  apply settled_bind; [apply settled_deepcopy |]. intros np w1 _.
  apply settled_bind; [apply settled_len |]. intros n w2 Hlen.
  destruct (len_Ok_inv _ _ _ _ Hlen) as [-> Hlen'].
  destruct (n =? 0); [simpl; auto with settle |].
  apply settled_bind; [apply settled_len |]. intros n' w2 Hlen2.
  destruct (len_Ok_inv _ _ _ _ Hlen2) as [-> _].
  assert (n' = n) as -> by congruence.
  destruct (n >? N); [apply tree_kept_refl |].
  apply settled_bind; [apply settled_len |]. intros n' w2 Hlen3.
  destruct (len_Ok_inv _ _ _ _ Hlen3) as [-> _].
  assert (n' = n) as -> by congruence.
  apply settled_bind; [apply settled_print |]. intros [] w3 Hprint.
  apply settled_bind; [| intros; apply tree_kept_refl].
  apply settled_loop. intros m Hm.
  injection Hprint as <-. rewrite Hlen' in Hm by (by destruct w1).
  by injection Hm as <-.
Qed.

Lemma settled_update_reinvigorate w (a : Action) (o : Observation) f :
  settled w (update_reinvigorate a o f w).
Proof.
  unfold update_reinvigorate.
  apply settled_bind; [apply tree_kept_refl |]. intros t w1 [= <- <-].
  apply settled_bind.
  { destruct (the_tree w) as [[root|]|];
      [| apply settled_raise; auto with settle ..].
    apply settled_bind; [apply settled_deref |].
    intros; apply tree_kept_refl. }
  intros tb w1 _.
  apply settled_bind; [apply tree_kept_refl |]. intros ib w2 [= <- <-].
  apply settled_bind; [apply settled_particles_of |]. intros ps w2 _.
  apply settled_bind; [apply settled_reinvigoration |]. intros b w3 _.
  apply settled_set_belief.
Qed.

(** *** The transplant *)

Lemma tree_getitem2_slot w (a : Action) (o : Observation) slot :
  child_slot w a o = Some slot -> tree_getitem2 a o w = Ok slot w.
Proof.
  unfold child_slot, root_action_node, tree_getitem2, VNode_getitem,
    QNode_getitem, bind, get, deref, ret.
  intros Hslot. destruct (the_tree w) as [[root|]|]; [| done | done].
  destruct (vnodes w !! root) as [v|]; [| done]. simpl in Hslot.
  destruct (dicts w !! children v) as [d|]; [| done]. simpl in Hslot.
  destruct (d !! a) as [q|]; [| done]. simpl in Hslot.
  destruct (qnodes w !! q) as [qn|]; [| done]. simpl in Hslot.
  by rewrite Hslot.
Qed.

Lemma child_slot_tree w (a : Action) (o : Observation) slot :
  child_slot w a o = Some slot -> exists t, the_tree w = Some t.
Proof.
  unfold child_slot, root_action_node.
  destruct (the_tree w) as [[root|]|]; [eauto | done | done].
Qed.

Lemma from_vnode_spec w c (v : VNode) (h : val) :
  vnodes w !! c = Some v ->
  from_vnode (Some c) h w
  = Ok (length (vnodes w))
       (set_vnodes (vnodes w ++ [with_history h v])
          (set_dicts (dicts w ++ [∅]) w)).
Proof.
  intros Hc. assert (Hlt := lookup_lt_Some _ _ _ Hc).
  unfold from_vnode, RootVNodeParticles, VNodeParticles_init,
    set_children_attr, new_vnode, new_dict, bind, deref, ret, modify.
  rewrite Hc. destruct w; simpl in *.
  rewrite lookup_app_l, Hc by done. simpl.
  rewrite lookup_app_r, Nat.sub_diag by done. simpl.
  rewrite insert_app_r_alt, Nat.sub_diag by done. simpl.
  by destruct v.
Qed.

(** With a particle belief and a child under the real action and
    observation, the first part of [update] makes that child the root. *)
Lemma update_transplant_spec w (a : Action) (o : Observation) c (v : VNode) :
  isinstance_Particles (the_belief w) w = true ->
  child_slot w a o = Some (Some c) ->
  vnodes w !! c = Some v ->
  update_transplant a o w = Ok true (transplanted w v).
Proof.
  intros Hp Hslot Hc. destruct (child_slot_tree _ _ _ _ Hslot) as [t Ht].
  unfold update_transplant, bind, get. rewrite Hp. cbn [negb]. rewrite Ht.
  rewrite (tree_getitem2_slot _ _ _ _ Hslot).
  rewrite (tree_getitem2_slot _ _ _ _ Hslot).
  rewrite (from_vnode_spec _ _ _ _ Hc).
  unfold set_tree, modify, ret, transplanted, the_belief, the_init_belief,
    the_history. by destruct w.
Qed.

(** The lookup [agent.tree[a][o]] changes nothing, raises nothing but
    benign exceptions, and answers a node only when the slot holds it. *)
Lemma tree_getitem2_outcome w (a : Action) (o : Observation) :
  match tree_getitem2 a o w with
  | Ok slot w1 =>
      w1 = w /\
      match slot with
      | Some c => child_slot w a o = Some (Some c)
      | None => True
      end
  | Raise e w1 => w1 = w /\ benign e
  | OutOfFuel => False
  end.
Proof.
  unfold child_slot, root_action_node, tree_getitem2, VNode_getitem,
    QNode_getitem, bind, get, deref, ret, raise.
  destruct (the_tree w) as [[root|]|]; [| split; auto with settle ..].
  destruct (vnodes w !! root) as [v|]; simpl; [| split; auto with settle].
  destruct (dicts w !! children v) as [d|]; simpl; [| split; auto with settle].
  destruct (d !! a) as [q|]; simpl; [| split; auto with settle].
  destruct (qnodes w !! q) as [qn|]; simpl; [| split; auto with settle].
  split; [done |].
  destruct (q_children qn !! o) as [[c|]|]; simpl; done.
Qed.

Lemma from_vnode_outcome w (c : option loc) (h : val) :
  match from_vnode c h w with
  | Ok r w1 =>
      exists cv v,
        c = Some cv /\ vnodes w !! cv = Some v /\ r = length (vnodes w)
        /\ w1 = set_vnodes (vnodes w ++ [with_history h v])
                  (set_dicts (dicts w ++ [∅]) w)
  | Raise e _ => benign e
  | OutOfFuel => False
  end.
Proof.
  destruct c as [cv|]; [| simpl; auto with settle].
  destruct (vnodes w !! cv) as [v|] eqn:Hc.
  - rewrite (from_vnode_spec _ _ _ _ Hc). eauto 10.
  - unfold from_vnode, bind, deref. rewrite Hc. auto with settle.
Qed.

(** The first part of [update] read backwards: when it says that the method
    goes on, the belief is a particle belief, the slot held a child, and the
    store is the one in which that child was made the root. *)
Lemma update_transplant_inv w w1 (a : Action) (o : Observation) :
  update_transplant a o w = Ok true w1 ->
  exists c v,
    isinstance_Particles (the_belief w) w = true
    /\ child_slot w a o = Some (Some c)
    /\ vnodes w !! c = Some v
    /\ w1 = transplanted w v.
Proof.
  unfold update_transplant, bind at 1 2 3, get.
  destruct (isinstance_Particles (the_belief w) w) eqn:Hp; [| done].
  cbn [negb]. destruct (the_tree w) as [t|] eqn:Ht; [| done].
  unfold bind at 1.
  pose proof (tree_getitem2_outcome w a o) as Hget.
  destruct (tree_getitem2 a o w) as [[c|] w'|e w'|]; [| done..].
  destruct Hget as [-> Hslot]. cbv beta iota.
  unfold bind at 1. rewrite (tree_getitem2_slot _ _ _ _ Hslot).
  unfold bind at 1, get.
  pose proof (from_vnode_outcome w (Some c) (VHistory (the_history w))) as Hfrom.
  unfold bind at 1.
  destruct (from_vnode (Some c) (VHistory (the_history w)) w)
    as [r w'|e w'|]; [| done..].
  destruct Hfrom as (cv & v & [= <-] & Hc & -> & ->).
  intros [= <-]. by exists c, v.
Qed.

Lemma concluded_update_transplant w (a : Action) (o : Observation) :
  isinstance_Particles (the_belief w) w = true ->
  concluded (update_transplant a o w).
Proof.
  intros Hp. unfold update_transplant, bind at 1 2 3, get. rewrite Hp.
  cbn [negb]. destruct (the_tree w) as [t|] eqn:Ht; [| done].
  unfold bind at 1.
  pose proof (tree_getitem2_outcome w a o) as Hget.
  destruct (tree_getitem2 a o w) as [[c|] w'|e w'|];
    [| simpl; auto with settle | tauto | done].
  destruct Hget as [-> Hslot]. cbv beta iota.
  unfold bind at 1. rewrite (tree_getitem2_slot _ _ _ _ Hslot).
  unfold bind at 1, get.
  pose proof (from_vnode_outcome w (Some c) (VHistory (the_history w))) as Hfrom.
  unfold bind at 1.
  by destruct (from_vnode (Some c) (VHistory (the_history w)) w).
Qed.

(** With a node under the agent's tree handle, the end of [update] is the
    branch that installs a copy of the agent's belief in that node. *)
Lemma update_finish_installs_copy
    (POUCT__expand_vnode :
       Planner -> loc -> History -> option State -> val -> M unit)
    (self : Planner) (args : PriorArgs) w r :
  the_tree w = Some (Some r) ->
  update_finish POUCT__expand_vnode self args w
  = bind (get the_belief)
      (fun b => bind (deepcopy b) (fun b' => set_belief_attr r b')) w.
Proof. intros Ht. unfold update_finish, bind at 1, get at 1. by rewrite Ht. Qed.

Lemma concluded_install_copy w r :
  concluded
    (bind (get the_belief)
       (fun b => bind (deepcopy b) (fun b' => set_belief_attr r b')) w).
Proof.
  unfold bind at 1, get. unfold bind at 1.
  pose proof (settled_deepcopy w (the_belief w)) as Hd.
  destruct (deepcopy (the_belief w) w) as [b' w1|e w1|];
    [| by destruct Hd | done].
  unfold set_belief_attr, bind, deref, modify.
  destruct (vnodes w1 !! r); simpl; auto with settle.
Qed.

(** [update] on a particle belief comes to an end and does not raise the
    representation mismatch, whatever the base engine is. *)
Lemma concluded_update
    (POUCT__expand_vnode :
       Planner -> loc -> History -> option State -> val -> M unit)
    (self : Planner) w (a : Action) (o : Observation) (args : PriorArgs) f :
  isinstance_Particles (the_belief w) w = true ->
  concluded (update POUCT__expand_vnode self a o args f w).
Proof.
  intros Hp. unfold update, bind at 1.
  pose proof (concluded_update_transplant w a o Hp) as Ht.
  destruct (update_transplant a o w) as [[|] w1|e w1|] eqn:Htr;
    [| done..].
  apply update_transplant_inv in Htr as (c & v & _ & _ & _ & ->).
  unfold bind at 1.
  pose proof (settled_update_reinvigorate (transplanted w v) a o f) as Hr.
  destruct (update_reinvigorate a o f (transplanted w v)) as [[] w2|e w2|];
    [| by destruct Hr | done].
  destruct Hr as (Htree & _).
  rewrite (update_finish_installs_copy _ _ _ _ (length (vnodes w))).
  - apply concluded_install_copy.
  - rewrite Htree. unfold transplanted. by destruct w.
Qed.

(** C3.  With a particle belief and no [tree] attribute on the agent,
    [update] returns without raising; it prints the warning and changes
    nothing else: the agent (belief, history, tree attribute) and every
    object of the store are as before. *)
Theorem update_without_tree_is_noop
    (POUCT__expand_vnode :
       Planner -> loc -> History -> option State -> val -> M unit)
    (self : Planner) w (a : Action) (o : Observation) (args : PriorArgs) f :
  isinstance_Particles (the_belief w) w = true ->
  the_tree w = None ->
  exists w',
    update POUCT__expand_vnode self a o args f w = Ok tt w'
    /\ stdout w' = stdout w ++ [no_tree_warning]
    /\ agent w' = agent w
    /\ beliefs w' = beliefs w /\ vnodes w' = vnodes w
    /\ dicts w' = dicts w /\ qnodes w' = qnodes w.
Proof.
  intros Hp Ht.
  exists (set_stdout (stdout w ++ [no_tree_warning]) w).
  split; [| by destruct w].
  unfold update, update_transplant, bind, get. rewrite Hp. cbn [negb].
  by rewrite Ht.
Qed.

(** C5.  With a particle belief and a tree whose slot for the real
    observation under the real action holds the never-simulated marker,
    [update] raises the particle-deprivation error, and the store in which
    it is raised is the store of the call: belief and tree are untouched. *)
Theorem update_marker_deprivation
    (POUCT__expand_vnode :
       Planner -> loc -> History -> option State -> val -> M unit)
    (self : Planner) w (a : Action) (o : Observation) (args : PriorArgs) f :
  isinstance_Particles (the_belief w) w = true ->
  child_slot w a o = Some None ->
  update POUCT__expand_vnode self a o args f w = Raise particle_deprivation w.
Proof.
  intros Hp Hslot. destruct (child_slot_tree _ _ _ _ Hslot) as [t Ht].
  unfold update, update_transplant, bind, get. rewrite Hp. cbn [negb].
  rewrite Ht. by rewrite (tree_getitem2_slot _ _ _ _ Hslot).
Qed.

(** *** The two later parts of [update] on a well-formed tree *)

Lemma particles_at_inv w (b : val) ps :
  particles_at w b = Some ps ->
  exists l, b = VBelief l /\ beliefs w !! l = Some (Particles ps).
Proof.
  destruct b as [|l|h]; unfold particles_at; [done | | done].
  destruct (beliefs w !! l) as [[qs|]|] eqn:Hl; [| done | done].
  intros [= ->]. eauto.
Qed.

Lemma particles_of_spec w (b : val) ps :
  particles_at w b = Some ps -> particles_of b w = Ok ps w.
Proof.
  intros (l & -> & Hl)%particles_at_inv.
  unfold particles_of, bind, deref. by rewrite Hl.
Qed.

Lemma reinvigorated_agent w ps N f :
  agent (reinvigorated w ps N f) = agent w
  /\ vnodes (reinvigorated w ps N f) = vnodes w
  /\ length (beliefs (reinvigorated w ps N f)) = S (length (beliefs w)).
Proof.
  unfold reinvigorated. destruct (Z.of_nat (length ps) >? N);
    destruct w; simpl; rewrite length_app; simpl; repeat split; lia.
Qed.

(** The second part: the root's particles are reinvigorated to the size
    of the initial belief, and the new object becomes the agent's belief. *)
Lemma update_reinvigorate_spec w (a : Action) (o : Observation) f
    (root : VNode) ps ips :
  root_node w = Some root ->
  particles_at w (belief root) = Some ps -> ps <> [] ->
  particles_at w (the_init_belief w) = Some ips ->
  update_reinvigorate a o f w
  = Ok tt (put_belief (VBelief (length (beliefs w)))
             (reinvigorated w ps (Z.of_nat (length ips)) f)).
Proof.
  unfold root_node. intros Hroot (l & Hb & Hl)%particles_at_inv Hps Hips.
  unfold update_reinvigorate, bind at 1, get at 1.
  destruct (the_tree w) as [[r|]|]; [| done | done].
  unfold bind at 1 2, deref, ret. rewrite Hroot, Hb.
  unfold bind at 1, get at 1. unfold bind at 1.
  rewrite (particles_of_spec _ _ _ Hips). unfold bind at 1.
  by rewrite (reinvigoration_spec _ _ _ _ _ _ _ Hl Hps).
Qed.

(** The last part: a copy of the agent's belief becomes the root's. *)
Lemma update_finish_spec
    (POUCT__expand_vnode :
       Planner -> loc -> History -> option State -> val -> M unit)
    (self : Planner) (args : PriorArgs) w r (root : VNode) qs :
  the_tree w = Some (Some r) ->
  vnodes w !! r = Some root ->
  particles_at w (the_belief w) = Some qs ->
  update_finish POUCT__expand_vnode self args w
  = Ok tt (set_vnodes
             (<[r := with_belief (VBelief (length (beliefs w))) root]>
                (vnodes w))
             (set_beliefs (beliefs w ++ [Particles qs]) w)).
Proof.
  intros Ht Hr (l & Hb & Hl)%particles_at_inv.
  rewrite (update_finish_installs_copy _ _ _ _ _ Ht).
  unfold bind at 1, get. rewrite Hb. unfold bind at 1.
  rewrite (deepcopy_belief _ _ _ Hl).
  unfold set_belief_attr, bind, deref, modify.
  assert (vnodes (set_beliefs (beliefs w ++ [Particles qs]) w) !! r
          = Some root) as -> by (by destruct w).
  by destruct w.
Qed.

Lemma particles_at_beliefs w w' (b : val) :
  beliefs w' = beliefs w -> particles_at w' b = particles_at w b.
Proof. intros Hb. unfold particles_at. by rewrite Hb. Qed.

(** [update] on a well-formed session.  Let the agent hold a particle
    belief and a history that ends with the real step, let the slot for
    the real observation under the real action hold a child whose belief
    is a collection [ps] that is not empty, and let the agent's initial
    belief hold [ips].  Then [update] returns; the new root has the
    child's counts, value and children, its history is the agent's, and
    its belief is a new object with max(|ps|, |ips|) particles; the
    agent's belief is another object with the same particles. *)
Lemma update_succeeds
    (POUCT__expand_vnode :
       Planner -> loc -> History -> option State -> val -> M unit)
    (self : Planner) w (a : Action) (o : Observation) (args : PriorArgs) f
    c (child : VNode) ps ips (h_old : History) :
  isinstance_Particles (the_belief w) w = true ->
  child_slot w a o = Some (Some c) ->
  vnodes w !! c = Some child ->
  particles_at w (belief child) = Some ps ->
  ps <> [] ->
  particles_at w (the_init_belief w) = Some ips ->
  the_history w = h_old ++ [(a, o)] ->
  exists w' root qs,
    update POUCT__expand_vnode self a o args f w = Ok tt w'
    /\ root_node w' = Some root
    /\ history root = Some (VHistory (h_old ++ [(a, o)]))
    /\ num_visits root = num_visits child
    /\ value root = value child
    /\ children root = children child
    /\ root_particles w' = Some qs
    /\ Z.of_nat (length qs)
       = Z.max (Z.of_nat (length ps)) (Z.of_nat (length ips))
    /\ particles_at w' (the_belief w') = Some qs
    /\ belief root <> the_belief w'
    /\ the_history w' = h_old ++ [(a, o)].
Proof.
  intros Hp Hslot Hc Hps Hne Hips Hh.
  set (N := Z.of_nat (length ips)).
  set (w1 := transplanted w child).
  set (r := length (vnodes w)).
  set (root1 := with_history (VHistory (the_history w)) child).
  set (lb := length (beliefs w)).
  set (w2 := put_belief (VBelief lb) (reinvigorated w1 ps N f)).
  set (qs := if Z.of_nat (length ps) >? N then ps
             else ps ++ (transformed f <$>
                           draws (rng w) (rng_pos w) ps
                             (Z.to_nat (N - Z.of_nat (length ps))))).
  set (root3 := with_belief (VBelief (S lb)) root1).
  set (w3 := set_vnodes (<[r := root3]> (vnodes w2))
               (set_beliefs (beliefs w2 ++ [Particles qs]) w2)).
  assert (Hb1 : beliefs w1 = beliefs w) by (by destruct w).
  assert (Hroot1 : root_node w1 = Some root1).
  { unfold root_node, w1, root1. destruct w; simpl.
    by rewrite lookup_app_r, Nat.sub_diag. }
  assert (Hstep2 : update_reinvigorate a o f w1 = Ok tt w2).
  { by rewrite (update_reinvigorate_spec _ _ _ _ root1 ps ips). }
  destruct (reinvigorated_agent w1 ps N f) as (Hag2 & Hvn2 & Hlen2).
  assert (Hb2 : beliefs w2 = beliefs (reinvigorated w1 ps N f))
    by (unfold w2; by destruct (reinvigorated w1 ps N f)).
  assert (Hvs2 : vnodes w2 = vnodes w ++ [root1]).
  { unfold w2. transitivity (vnodes (reinvigorated w1 ps N f));
      [by destruct (reinvigorated w1 ps N f) |].
    rewrite Hvn2. by destruct w. }
  assert (Ht2 : the_tree w2 = Some (Some r)).
  { unfold w2, the_tree, put_belief. simpl. unfold the_tree.
    rewrite Hag2. by destruct w. }
  assert (Hbel2 : the_belief w2 = VBelief lb) by done.
  assert (Hh2 : the_history w2 = the_history w).
  { unfold w2, the_history, put_belief. simpl. unfold the_history.
    rewrite Hag2. by destruct w. }
  assert (Hqs2 : particles_at w2 (VBelief lb) = Some qs).
  { rewrite (particles_at_beliefs _ _ _ Hb2). unfold lb. rewrite <- Hb1.
    rewrite reinvigorated_new. unfold qs, w1. by destruct w. }
  assert (Hlb2 : length (beliefs w2) = S lb).
  { rewrite Hb2, Hlen2, Hb1. done. }
  assert (Hstep3 :
    update_finish POUCT__expand_vnode self args w2 = Ok tt w3).
  { rewrite (update_finish_spec _ _ _ _ r root1 qs); try done.
    + unfold w3, root3. by rewrite Hlb2.
    + rewrite Hvs2. by rewrite lookup_app_r, Nat.sub_diag. }
  assert (Hroot3 : root_node w3 = Some root3).
  { unfold root_node.
    assert (the_tree w3 = the_tree w2) as -> by (unfold w3; by destruct w2).
    rewrite Ht2.
    assert (vnodes w3 = <[r := root3]> (vnodes w2)) as ->
      by (unfold w3; by destruct w2).
    rewrite Hvs2, list_lookup_insert_eq; [done |].
    rewrite length_app. simpl. unfold r. lia. }
  assert (Hb3 : beliefs w3 = beliefs w2 ++ [Particles qs])
    by (unfold w3; by destruct w2).
  assert (Hbel3 : the_belief w3 = VBelief lb)
    by (unfold w3; by destruct w2).
  exists w3, root3, qs.
  split.
  { unfold update, bind at 1.
    rewrite (update_transplant_spec _ _ _ _ _ Hp Hslot Hc).
    fold w1. unfold bind. by rewrite Hstep2. }
  split; [done |].
  split; [by unfold root3, root1; simpl; rewrite Hh |].
  split; [done |]. split; [done |]. split; [done |].
  split.
  { assert (Hnew : particles_at w3 (VBelief (S lb)) = Some qs).
    { unfold particles_at.
      by rewrite Hb3, <- Hlb2, lookup_app_r, Nat.sub_diag. }
    unfold root_particles. rewrite Hroot3. exact Hnew. }
  split.
  { unfold qs. destruct (Z.gtb_spec (Z.of_nat (length ps)) N); [lia |].
    rewrite length_app, length_fmap, draws_length by done. lia. }
  split.
  { rewrite Hbel3. unfold particles_at. rewrite Hb3, lookup_app_l by lia.
    apply Hqs2. }
  split.
  { rewrite Hbel3. simpl. intros [=]. lia. }
  assert (the_history w3 = the_history w2) as ->
    by (unfold w3; by destruct w2).
  by rewrite Hh2.
Qed.

Lemma particles_of_None w (b : val) :
  particles_at w b = None -> exists e, particles_of b w = Raise e w.
Proof.
  destruct b as [|l|h]; unfold particles_at, particles_of, bind, deref, raise;
    [by eauto | | by eauto].
  destruct (beliefs w !! l) as [[ps|]|]; [done | by eauto | by eauto].
Qed.

(** The second part of [update] read backwards: it returns only if there
    are particles to draw from and the initial belief gives a target. *)
Lemma update_reinvigorate_inv w w2 (a : Action) (o : Observation) f
    (root : VNode) ps :
  root_node w = Some root ->
  particles_at w (belief root) = Some ps ->
  update_reinvigorate a o f w = Ok tt w2 ->
  ps <> [] /\ exists ips, particles_at w (the_init_belief w) = Some ips.
Proof.
  unfold root_node. intros Hroot Hps.
  destruct (particles_at_inv _ _ _ Hps) as (l & Hb & Hl).
  unfold update_reinvigorate, bind at 1, get at 1.
  destruct (the_tree w) as [[r|]|]; [| done | done].
  unfold bind at 1 2, deref, ret. rewrite Hroot, Hb.
  unfold bind at 1, get at 1. unfold bind at 1.
  destruct (particles_at w (the_init_belief w)) as [ips|] eqn:Hips.
  - rewrite (particles_of_spec _ _ _ Hips). unfold bind at 1.
    destruct ps as [|p ps]; [| by eauto].
    by rewrite (reinvigoration_of_nothing _ _ _ _ _ _ Hl).
  - destruct (particles_of_None _ _ Hips) as [e ->]. done.
Qed.

(** Amended C1.  Let the agent's history end with the real step, and let
    the slot for the real observation under the real action hold a child
    whose belief is a collection [ps] of k particles.  [update] returns if
    and only if the agent's belief is a particle belief, [ps] is not empty
    and the initial belief is a collection, of N particles say.  Whenever
    it returns, the new root has the child's counts, value and children,
    its history is the old history followed by the real step, and its
    belief is a new object of max(k, N) particles: N when k is at most N,
    and k when the child already held more.  The agent's belief is another
    object with the same particles. *)
Theorem update_installs_reinvigorated_root
    (POUCT__expand_vnode :
       Planner -> loc -> History -> option State -> val -> M unit)
    (self : Planner) w (a : Action) (o : Observation) (args : PriorArgs) f
    c (child : VNode) ps (h_old : History) :
  child_slot w a o = Some (Some c) ->
  vnodes w !! c = Some child ->
  particles_at w (belief child) = Some ps ->
  the_history w = h_old ++ [(a, o)] ->
  ((exists w', update POUCT__expand_vnode self a o args f w = Ok tt w')
   <-> isinstance_Particles (the_belief w) w = true
       /\ ps <> [] /\ is_Some (target_count w))
  /\ forall w',
      update POUCT__expand_vnode self a o args f w = Ok tt w' ->
      exists root qs N,
        target_count w = Some N
        /\ root_node w' = Some root
        /\ history root = Some (VHistory (h_old ++ [(a, o)]))
        /\ num_visits root = num_visits child
        /\ value root = value child
        /\ children root = children child
        /\ root_particles w' = Some qs
        /\ Z.of_nat (length qs) = Z.max (Z.of_nat (length ps)) N
        /\ particles_at w' (the_belief w') = Some qs
        /\ belief root <> the_belief w'
        /\ the_history w' = h_old ++ [(a, o)].
Proof.
  intros Hslot Hc Hps Hh.
  assert (Hinv : forall w',
            update POUCT__expand_vnode self a o args f w = Ok tt w' ->
            isinstance_Particles (the_belief w) w = true
            /\ ps <> []
            /\ exists ips, particles_at w (the_init_belief w) = Some ips).
  { intros w' Hrun.
    destruct (isinstance_Particles (the_belief w) w) eqn:Hp.
    - split; [done |].
      unfold update, bind at 1 in Hrun.
      rewrite (update_transplant_spec _ _ _ _ _ Hp Hslot Hc) in Hrun.
      unfold bind at 1 in Hrun.
      destruct (update_reinvigorate a o f (transplanted w child))
        as [[] w2|e w2|] eqn:Hr; [| done | done].
      apply (update_reinvigorate_inv _ _ _ _ _
               (with_history (VHistory (the_history w)) child) ps) in Hr.
      + destruct Hr as (Hne & ips & Hips). split; [done |].
        exists ips. rewrite <- Hips. symmetry.
        apply particles_at_beliefs. by destruct w.
      + unfold root_node. destruct w; simpl.
        by rewrite lookup_app_r, Nat.sub_diag.
      + rewrite <- Hps. apply particles_at_beliefs. by destruct w.
    - unfold update, update_transplant, bind, get in Hrun.
      by rewrite Hp in Hrun. }
  split.
  - split.
    + intros [w' Hrun]. destruct (Hinv w' Hrun) as (Hp & Hne & ips & Hips).
      repeat split; [done.. |]. unfold target_count. rewrite Hips. by eexists.
    + intros (Hp & Hne & [N HN]). unfold target_count in HN.
      destruct (particles_at w (the_init_belief w)) as [ips|] eqn:Hips;
        [| done].
      destruct (update_succeeds POUCT__expand_vnode self w a o args f c child
                  ps ips h_old Hp Hslot Hc Hps Hne Hips Hh)
        as (w' & _ & _ & Hrun & _).
      eauto.
  - intros w' Hrun. destruct (Hinv w' Hrun) as (Hp & Hne & ips & Hips).
    destruct (update_succeeds POUCT__expand_vnode self w a o args f c child
                ps ips h_old Hp Hslot Hc Hps Hne Hips Hh)
      as (w'' & root & qs & Hrun' & Hfacts).
    rewrite Hrun in Hrun'. injection Hrun' as <-.
    exists root, qs, (Z.of_nat (length ips)).
    split; [by unfold target_count; rewrite Hips |]. exact Hfacts.
Qed.

(** C8.  When the agent's belief is not a particle belief, [plan] and
    [update] both raise the representation mismatch in the store of the
    call, so nothing was searched, updated or changed.  When it is a
    particle belief, the test passes: [plan] is the base engine's [plan],
    and [update] comes to an end without raising the representation
    mismatch. *)
Theorem representation_mismatch_guard
    (POUCT_plan : Planner -> PriorArgs -> M Action)
    (POUCT__expand_vnode :
       Planner -> loc -> History -> option State -> val -> M unit)
    (self : Planner) w (a : Action) (o : Observation) (args : PriorArgs) f :
  if isinstance_Particles (the_belief w) w then
    plan POUCT_plan self args w = POUCT_plan self args w
    /\ update POUCT__expand_vnode self a o args f w <> OutOfFuel
    /\ forall w',
         update POUCT__expand_vnode self a o args f w
         <> Raise representation_mismatch w'
  else
    plan POUCT_plan self args w = Raise representation_mismatch w
    /\ update POUCT__expand_vnode self a o args f w
       = Raise representation_mismatch w.
Proof.
  destruct (isinstance_Particles (the_belief w) w) eqn:Hp.
  - split; [by unfold plan, bind, get; rewrite Hp |].
    pose proof (concluded_update POUCT__expand_vnode self w a o args f Hp) as Hc.
    destruct (update POUCT__expand_vnode self a o args f w);
      simpl in Hc; [done | | done].
    split; [done |]. intros w' [= -> _]. by apply Hc.
  - split.
    + by unfold plan, bind, get; rewrite Hp.
    + by unfold update, update_transplant, bind, get; rewrite Hp.
Qed.

(** C10.  Once the first part of [update] has made the child the root, the
    agent's tree handle is on a node; the reinvigoration that follows does
    not touch the handle, so the final test [agent.tree is None] fails and
    the method ends in the branch that installs a copy of the agent's
    belief in that node.  The branch that would build and expand a new
    root is never entered: [update] is the same whatever the base engine's
    [_expand_vnode] is. *)
Theorem update_fresh_root_branch_unreachable
    (POUCT__expand_vnode :
       Planner -> loc -> History -> option State -> val -> M unit)
    (self : Planner) w w1 (a : Action) (o : Observation) (args : PriorArgs) f :
  update_transplant a o w = Ok true w1 ->
  exists r root,
    the_tree w1 = Some (Some r)
    /\ vnodes w1 !! r = Some root
    /\ (forall w2,
          update_reinvigorate a o f w1 = Ok tt w2 ->
          the_tree w2 = Some (Some r)
          /\ update_finish POUCT__expand_vnode self args w2
             = bind (get the_belief)
                 (fun b => bind (deepcopy b) (fun b' => set_belief_attr r b'))
                 w2)
    /\ (forall expand',
          update expand' self a o args f w
          = update POUCT__expand_vnode self a o args f w).
Proof.
  intros Htr.
  destruct (update_transplant_inv _ _ _ _ Htr) as (c & v & _ & _ & _ & ->).
  assert (Hroot : the_tree (transplanted w v) = Some (Some (length (vnodes w))))
    by (by destruct w).
  assert (Hkept : forall w2,
            update_reinvigorate a o f (transplanted w v) = Ok tt w2 ->
            the_tree w2 = Some (Some (length (vnodes w)))).
  { intros w2 Hr.
    pose proof (settled_update_reinvigorate (transplanted w v) a o f) as Hs.
    rewrite Hr in Hs. destruct Hs as (-> & _). done. }
  exists (length (vnodes w)), (with_history (VHistory (the_history w)) v).
  split; [done |]. split.
  { destruct w; simpl. by rewrite lookup_app_r, Nat.sub_diag. }
  split.
  - intros w2 Hr. split; [by apply Hkept |].
    by apply update_finish_installs_copy, Hkept.
  - intros expand'. unfold update, bind at 1 3. rewrite Htr.
    unfold bind.
    destruct (update_reinvigorate a o f (transplanted w v))
      as [[] w2|e w2|] eqn:Hr; [| done..].
    by rewrite !(update_finish_installs_copy _ _ _ _ _ (Hkept _ eq_refl)).
Qed.

(** C9.  Let the base engine's [_simulate] return a reward.  [_simulate]
    returns the same reward.  At depth 1 with a root node whose belief is a
    particle collection, the store it leaves is the base engine's with the
    state appended to that collection and nothing else changed; at any
    other depth, or without a root, it is the base engine's store. *)
Theorem simulate_deposits_state_at_depth_one
    (POUCT__simulate :
       Planner -> State -> History -> option loc -> option loc ->
       option Observation -> Z -> M float)
    (self : Planner) (state : State) (history : History)
    (root parent : option loc) (observation : option Observation)
    (depth : Z) (args : PriorArgs) w w1 (total_reward : float) :
  POUCT__simulate self state history root parent observation depth w
    = Ok total_reward w1 ->
  (forall r v l ps,
      depth = 1 -> root = Some r ->
      vnodes w1 !! r = Some v -> belief v = VBelief l ->
      beliefs w1 !! l = Some (Particles ps) ->
      _simulate POUCT__simulate self state history root parent observation
        depth args w
      = Ok total_reward
          (set_beliefs (<[l := Particles (ps ++ [state])]> (beliefs w1)) w1)
      /\ particles_at
           (set_beliefs (<[l := Particles (ps ++ [state])]> (beliefs w1)) w1)
           (belief v) = Some (ps ++ [state]))
  /\ (depth <> 1 \/ root = None ->
      _simulate POUCT__simulate self state history root parent observation
        depth args w
      = Ok total_reward w1).
Proof.
  intros Hbase. split.
  - intros r v l ps -> -> Hr Hb Hl. split.
    + unfold _simulate, bind at 1. rewrite Hbase. simpl.
      unfold bind at 1, deref. rewrite Hr, Hb.
      unfold bind. by rewrite (add_particles _ _ _ _ Hl).
    + rewrite Hb. by apply particles_at_add_same.
  - intros Hno. unfold _simulate, bind at 1. rewrite Hbase.
    destruct (Z.eqb_spec depth 1) as [Hd|Hd]; [| done].
    destruct Hno as [Hno| ->]; done.
Qed.

(** *** Default beliefs *)

Lemma VNodeParticles_spec w (n : Z) (x : float) (b : option val) :
  VNodeParticles n x b w
  = Ok (length (vnodes w))
      (node_built w n x (default (VNodeParticles_default w) b)).
Proof. by destruct b, w. Qed.

Lemma node_built_facts w (n : Z) (x : float) (b : val) :
  beliefs (node_built w n x b) = beliefs w
  /\ vnodes (node_built w n x b)
     = vnodes w ++ [mkVNode n x b (length (dicts w)) None]
  /\ VNodeParticles_default (node_built w n x b) = VNodeParticles_default w.
Proof. by destruct w. Qed.

(** A state added to the belief of the first of two nodes built one after
    the other: what the two nodes then hold, by their belief attributes. *)
Lemma two_built_then_add w (n : Z) (x : float) (b1 b2 : val) l ps s :
  b1 = VBelief l ->
  beliefs w !! l = Some (Particles ps) ->
  let w2 := node_built (node_built w n x b1) n x b2 in
  exists w',
    bind (deref vnodes (length (vnodes w)))
      (fun v1 => bind (add (belief v1) s)
         (fun _ => ret (length (vnodes w), S (length (vnodes w))))) w2
    = Ok (length (vnodes w), S (length (vnodes w))) w'
    /\ node_particles w' (length (vnodes w)) = Some (ps ++ [s])
    /\ particles_at w' (VBelief l) = Some (ps ++ [s])
    /\ node_particles w' (S (length (vnodes w))) = particles_at w' b2
    /\ (forall l', l' <> l -> beliefs w' !! l' = beliefs w !! l').
Proof.
  intros -> Hl w2.
  destruct (node_built_facts w n x (VBelief l)) as (Hb1 & Hv1 & _).
  destruct (node_built_facts (node_built w n x (VBelief l)) n x b2)
    as (Hb2 & Hv2 & _).
  fold w2 in Hb2, Hv2. rewrite Hb1 in Hb2. rewrite Hv1 in Hv2.
  assert (Hn1 : vnodes w2 !! length (vnodes w)
                = Some (mkVNode n x (VBelief l) (length (dicts w)) None)).
  { rewrite Hv2, lookup_app_l by (rewrite length_app; simpl; lia).
    by rewrite lookup_app_r, Nat.sub_diag. }
  assert (Hn2 : exists d, vnodes w2 !! S (length (vnodes w))
                          = Some (mkVNode n x b2 d None)).
  { eexists. rewrite Hv2, lookup_app_r by (rewrite length_app; simpl; lia).
    rewrite length_app. simpl.
    by replace (S (length (vnodes w)) - (length (vnodes w) + 1))%nat
      with 0%nat by lia. }
  destruct Hn2 as [d Hn2].
  assert (Hl2 : beliefs w2 !! l = Some (Particles ps)) by (by rewrite Hb2).
  exists (set_beliefs (<[l := Particles (ps ++ [s])]> (beliefs w2)) w2).
  split.
  { unfold bind at 1, deref. rewrite Hn1. unfold bind. simpl belief.
    by rewrite (add_particles _ _ _ _ Hl2). }
  assert (Hvs : vnodes (set_beliefs (<[l := Particles (ps ++ [s])]>
                                       (beliefs w2)) w2) = vnodes w2)
    by (by destruct w2).
  split; [| split; [| split]].
  - unfold node_particles. rewrite Hvs, Hn1.
    by apply particles_at_add_same.
  - by apply particles_at_add_same.
  - unfold node_particles. by rewrite Hvs, Hn2.
  - intros l' Hne.
    assert (beliefs (set_beliefs (<[l := Particles (ps ++ [s])]>
                                    (beliefs w2)) w2)
            = <[l := Particles (ps ++ [s])]> (beliefs w2)) as ->
      by (by destruct w2).
    by rewrite list_lookup_insert_ne, Hb2.
Qed.

(** Two nodes built without a belief argument hold the same object, the
    default bound when the class was defined: a state added through one
    of them is in the belief of both. *)
Lemma two_nodes_share_default w l ps (n : Z) (x : float) (s : State) :
  VNodeParticles_default w = VBelief l ->
  beliefs w !! l = Some (Particles ps) ->
  exists w',
    two_nodes_then_add n x s w
      = Ok (length (vnodes w), S (length (vnodes w))) w'
    /\ node_particles w' (length (vnodes w)) = Some (ps ++ [s])
    /\ node_particles w' (S (length (vnodes w))) = Some (ps ++ [s]).
Proof.
  intros Hd Hl.
  destruct (two_built_then_add w n x (VBelief l) (VBelief l) l ps s eq_refl Hl)
    as (w' & Hrun & Hn1 & Hat & Hn2 & _).
  exists w'. split; [| split; [done | by rewrite Hn2]].
  unfold two_nodes_then_add. unfold bind at 1.
  rewrite VNodeParticles_spec. unfold bind at 1.
  rewrite VNodeParticles_spec.
  destruct (node_built_facts w n x (VBelief l)) as (_ & Hv1 & _).
  simpl default. rewrite Hd, Hv1, length_app. simpl.
  rewrite Nat.add_1_r. exact Hrun.
Qed.

(** Two nodes built by [_VNode] without an agent hold two new, empty
    objects: a state added through the first is not in the second. *)
Lemma two_VNodes_have_own_beliefs (self : Planner) w (s : State) :
  exists w',
    two_VNodes_then_add self s w
      = Ok (length (vnodes w), S (length (vnodes w))) w'
    /\ node_particles w' (length (vnodes w)) = Some [s]
    /\ node_particles w' (S (length (vnodes w))) = Some [].
Proof.
  set (l1 := length (beliefs w)).
  set (w0 := set_beliefs (beliefs w ++ [Particles []; Particles []]) w).
  assert (Hl1 : beliefs w0 !! l1 = Some (Particles [])).
  { unfold w0, l1. destruct w; simpl.
    by rewrite lookup_app_r, Nat.sub_diag. }
  assert (Hl2 : beliefs w0 !! S l1 = Some (Particles [])).
  { unfold w0, l1. destruct w; simpl.
    rewrite lookup_app_r by lia.
    by replace (S (length beliefs0) - length beliefs0)%nat with 1%nat by lia. }
  destruct (two_built_then_add w0 (_num_visits_init self) (_value_init self)
              (VBelief l1) (VBelief (S l1)) l1 [] s eq_refl Hl1)
    as (w' & Hrun & Hn1 & _ & Hn2 & Hframe).
  assert (Hvs : vnodes w0 = vnodes w) by (by destruct w).
  rewrite Hvs in *.
  exists w'. split; [| split; [done |]].
  - rewrite <- Hrun.
    unfold two_VNodes_then_add, _VNode, bind at 1 2, new_belief.
    rewrite VNodeParticles_spec. unfold bind at 1 2.
    rewrite VNodeParticles_spec.
    unfold w0, l1. destruct w; simpl. rewrite !length_app. simpl.
    rewrite <- !app_assoc. simpl. by rewrite !Nat.add_1_r.
  - rewrite Hn2. unfold particles_at. by rewrite Hframe, Hl2 by lia.
Qed.

(** *** Further properties of the node constructors *)

Lemma RootVNodeParticles_spec w (n : Z) (x : float) (h : val)
    (b : option val) :
  RootVNodeParticles n x h b w
  = Ok (length (vnodes w))
      (root_built w n x h (default (RootVNodeParticles_default w) b)).
Proof. by destruct b, w. Qed.

Lemma root_built_facts w (n : Z) (x : float) (h b : val) :
  beliefs (root_built w n x h b) = beliefs w
  /\ vnodes (root_built w n x h b)
     = vnodes w ++ [mkVNode n x b (length (dicts w)) (Some h)]
  /\ dicts (root_built w n x h b) = dicts w ++ [∅]
  /\ agent (root_built w n x h b) = agent w
  /\ RootVNodeParticles_default (root_built w n x h b)
     = RootVNodeParticles_default w
  /\ VNodeParticles_default (root_built w n x h b)
     = VNodeParticles_default w.
Proof. by destruct w. Qed.

(** Adding a state through a reference changes the object it names and no
    other. *)
Lemma add_through w l ps (s : State) :
  beliefs w !! l = Some (Particles ps) ->
  exists w',
    add (VBelief l) s w = Ok tt w'
    /\ particles_at w' (VBelief l) = Some (ps ++ [s])
    /\ (forall l', l' <> l -> beliefs w' !! l' = beliefs w !! l')
    /\ vnodes w' = vnodes w /\ agent w' = agent w.
Proof.
  intros Hl. eexists. split; [by apply add_particles |].
  split; [by apply particles_at_add_same |].
  split; [| by destruct w].
  intros l' Hne. destruct w; simpl. by rewrite list_lookup_insert_ne.
Qed.

(** X1.  [from_vnode] builds a new node, different from the one it is
    given and leaving that one as it was, with the given history and the
    counts and value of the old node.  Belief and children are taken by
    reference: the two nodes name the same objects, so a state added
    through the belief of the new root is in the belief of the old node
    as well. *)
Theorem from_vnode_shares_belief_and_children w c (v : VNode) (h : val)
    l ps (s : State) :
  vnodes w !! c = Some v ->
  belief v = VBelief l ->
  beliefs w !! l = Some (Particles ps) ->
  exists w1 r root,
    from_vnode (Some c) h w = Ok r w1
    /\ r <> c
    /\ vnodes w1 !! r = Some root
    /\ vnodes w1 !! c = Some v
    /\ history root = Some h
    /\ num_visits root = num_visits v
    /\ value root = value v
    /\ belief root = belief v
    /\ children root = children v
    /\ beliefs w1 = beliefs w
    /\ agent w1 = agent w
    /\ exists w2,
         add (belief root) s w1 = Ok tt w2
         /\ node_particles w2 r = Some (ps ++ [s])
         /\ node_particles w2 c = Some (ps ++ [s]).
Proof.
  intros Hc Hb Hl. assert (Hlt := lookup_lt_Some _ _ _ Hc).
  set (w1 := set_vnodes (vnodes w ++ [with_history h v])
               (set_dicts (dicts w ++ [∅]) w)).
  assert (Hvs : vnodes w1 = vnodes w ++ [with_history h v]) by (by destruct w).
  assert (Hbs : beliefs w1 = beliefs w) by (by destruct w).
  assert (Hr : vnodes w1 !! length (vnodes w) = Some (with_history h v))
    by (by rewrite Hvs, lookup_app_r, Nat.sub_diag).
  assert (Hc1 : vnodes w1 !! c = Some v) by (by rewrite Hvs, lookup_app_l).
  exists w1, (length (vnodes w)), (with_history h v).
  split; [by apply from_vnode_spec |].
  split; [lia |]. do 8 (split; [done |]). split; [by destruct w |].
  assert (Hl1 : beliefs w1 !! l = Some (Particles ps)) by (by rewrite Hbs).
  destruct (add_through w1 l ps s Hl1) as (w2 & Hadd & Hat & _ & Hvs2 & _).
  exists w2. change (belief (with_history h v)) with (belief v).
  rewrite Hb. split; [done |].
  unfold node_particles. rewrite Hvs2, Hr, Hc1. simpl. by rewrite Hb.
Qed.

(** X4.  [RootVNodeParticles] has a default belief of its own.  Two roots
    built without a belief argument hold that one object, so a state added
    through the first is in the belief of the second; a node built by
    [VNodeParticles] without a belief argument holds the other class's
    default, and does not see the state. *)
Theorem RootVNodeParticles_default_is_shared w lr lv ps qs (n : Z)
    (x : float) (h : val) (s : State) :
  RootVNodeParticles_default w = VBelief lr ->
  VNodeParticles_default w = VBelief lv ->
  lr <> lv ->
  beliefs w !! lr = Some (Particles ps) ->
  beliefs w !! lv = Some (Particles qs) ->
  exists w',
    two_roots_then_add n x h s w
      = Ok (length (vnodes w), S (length (vnodes w)),
            S (S (length (vnodes w)))) w'
    /\ node_particles w' (length (vnodes w)) = Some (ps ++ [s])
    /\ node_particles w' (S (length (vnodes w))) = Some (ps ++ [s])
    /\ node_particles w' (S (S (length (vnodes w)))) = Some qs.
Proof.
  intros Hdr Hdv Hne Hlr Hlv.
  set (w1 := root_built w n x h (VBelief lr)).
  set (w2 := root_built w1 n x h (VBelief lr)).
  set (w3 := node_built w2 n x (VBelief lv)).
  destruct (root_built_facts w n x h (VBelief lr))
    as (Hb1 & Hv1 & _ & _ & Hr1 & Hd1).
  destruct (root_built_facts w1 n x h (VBelief lr))
    as (Hb2 & Hv2 & _ & _ & Hr2 & Hd2).
  destruct (node_built_facts w2 n x (VBelief lv)) as (Hb3 & Hv3 & _).
  fold w1 in Hb1, Hv1, Hr1, Hd1. fold w2 in Hb2, Hv2, Hr2, Hd2.
  fold w3 in Hb3, Hv3.
  assert (Hlen1 : length (vnodes w1) = S (length (vnodes w)))
    by (rewrite Hv1, length_app; simpl; lia).
  assert (Hlen2 : length (vnodes w2) = S (S (length (vnodes w))))
    by (rewrite Hv2, length_app, Hlen1; simpl; lia).
  assert (Hbs : beliefs w3 = beliefs w) by congruence.
  assert (Hn1 : vnodes w3 !! length (vnodes w)
                = Some (mkVNode n x (VBelief lr) (length (dicts w))
                          (Some h))).
  { rewrite Hv3, lookup_app_l by lia. rewrite Hv2, lookup_app_l by lia.
    by rewrite Hv1, lookup_app_r, Nat.sub_diag. }
  assert (Hn2 : vnodes w3 !! S (length (vnodes w))
                = Some (mkVNode n x (VBelief lr) (length (dicts w1))
                          (Some h))).
  { rewrite Hv3, lookup_app_l by lia.
    by rewrite Hv2, lookup_app_r, Hlen1, Nat.sub_diag by lia. }
  assert (Hn3 : vnodes w3 !! S (S (length (vnodes w)))
                = Some (mkVNode n x (VBelief lv) (length (dicts w2)) None)).
  { by rewrite Hv3, lookup_app_r, Hlen2, Nat.sub_diag by lia. }
  assert (Hl3 : beliefs w3 !! lr = Some (Particles ps)) by (by rewrite Hbs).
  destruct (add_through w3 lr ps s Hl3) as (w' & Hadd & Hat & Hfr & Hvs & _).
  exists w'. split.
  { unfold two_roots_then_add. unfold bind at 1.
    rewrite RootVNodeParticles_spec. simpl default. rewrite Hdr. fold w1.
    unfold bind at 1. rewrite RootVNodeParticles_spec. simpl default.
    rewrite ?Hr1, Hdr. fold w2.
    unfold bind at 1. rewrite VNodeParticles_spec. simpl default.
    rewrite ?Hd2, ?Hd1, Hdv. fold w3.
    unfold bind at 1, deref. rewrite Hlen1, Hlen2, Hn1.
    unfold bind. simpl belief. by rewrite Hadd. }
  unfold node_particles. rewrite Hvs, Hn1, Hn2, Hn3. simpl.
  split; [done |]. split; [done |].
  unfold particles_at. by rewrite Hfr, Hbs, Hlv.
Qed.

(** X2.  [_VNode] with an agent builds a new node, a root with the agent's
    history when [root] is set and a plain node otherwise, with the
    planner's initial count and value and no children.  Its belief is a
    new object holding the particles of the agent's belief: a state added
    to it is not in the agent's belief.  Nothing that existed is changed.
    Asked for a root without an agent, [_VNode] raises and changes
    nothing. *)
Theorem VNode_hook_with_agent_copies_belief (self : Planner) (root : bool) w ps
    (s : State) :
  particles_at w (the_belief w) = Some ps ->
  (exists w1 node,
     _VNode self true root w = Ok (length (vnodes w)) w1
     /\ vnodes w1 = vnodes w ++ [node]
     /\ history node
        = (if root then Some (VHistory (the_history w)) else None)
     /\ num_visits node = _num_visits_init self
     /\ value node = _value_init self
     /\ belief node = VBelief (length (beliefs w))
     /\ belief node <> the_belief w
     /\ dicts w1 !! children node = Some ∅
     /\ beliefs w1 = beliefs w ++ [Particles ps]
     /\ agent w1 = agent w
     /\ exists w2,
          add (belief node) s w1 = Ok tt w2
          /\ node_particles w2 (length (vnodes w)) = Some (ps ++ [s])
          /\ particles_at w2 (the_belief w2) = Some ps)
  /\ _VNode self false true w = Raise (no_attribute "history") w.
Proof.
  intros Hps. split; [| done].
  destruct (particles_at_inv _ _ _ Hps) as (l & Hb & Hl).
  assert (Hlt := lookup_lt_Some _ _ _ Hl).
  set (lb := length (beliefs w)).
  set (wb := set_beliefs (beliefs w ++ [Particles ps]) w).
  set (node := mkVNode (_num_visits_init self) (_value_init self)
                 (VBelief lb) (length (dicts w))
                 (if root then Some (VHistory (the_history w)) else None)).
  set (w1 := set_vnodes (vnodes w ++ [node])
               (set_dicts (dicts w ++ [∅]) wb)).
  assert (Hrun : _VNode self true root w = Ok (length (vnodes w)) w1).
  { unfold _VNode. destruct root.
    - unfold bind at 1 2, get. rewrite Hb. unfold bind at 1.
      rewrite (deepcopy_belief _ _ _ Hl). fold wb lb.
      rewrite RootVNodeParticles_spec. unfold w1, node, wb. by destruct w.
    - unfold bind at 1, get. rewrite Hb. unfold bind at 1.
      rewrite (deepcopy_belief _ _ _ Hl). fold wb lb.
      rewrite VNodeParticles_spec. unfold w1, node, wb. by destruct w. }
  assert (Hbs : beliefs w1 = beliefs w ++ [Particles ps]) by (by destruct w).
  assert (Hvs : vnodes w1 = vnodes w ++ [node]) by (by destruct w).
  assert (Hag : agent w1 = agent w) by (by destruct w).
  exists w1, node. split; [done |]. split; [done |].
  do 3 (split; [done |]). split; [done |].
  split; [rewrite Hb; simpl; intros [=]; lia |].
  split; [destruct w; simpl; by rewrite lookup_app_r, Nat.sub_diag |].
  split; [done |]. split; [done |].
  assert (Hnew : beliefs w1 !! lb = Some (Particles ps))
    by (by rewrite Hbs, lookup_app_r, Nat.sub_diag).
  destruct (add_through w1 lb ps s Hnew) as (w2 & Hadd & Hat & Hfr & Hvs2 & Hag2).
  exists w2. split; [done |]. split.
  - unfold node_particles.
    by rewrite Hvs2, Hvs, lookup_app_r, Nat.sub_diag.
  - unfold the_belief. rewrite Hag2, Hag. fold (the_belief w). rewrite Hb.
    unfold particles_at. rewrite Hfr by (unfold lb; lia).
    by rewrite Hbs, lookup_app_l, Hl.
Qed.

(** X3.  Two nodes built by [_VNode] without an agent hold two new, empty
    belief objects of their own: a state added through the first is in
    the first and not in the second, and every belief object that existed
    before, the class defaults and the agent's belief among them, is as
    it was. *)
Theorem VNode_hook_without_agent_fresh_beliefs (self : Planner) w
    (s : State) :
  exists w',
    two_VNodes_then_add self s w
      = Ok (length (vnodes w), S (length (vnodes w))) w'
    /\ node_particles w' (length (vnodes w)) = Some [s]
    /\ node_particles w' (S (length (vnodes w))) = Some []
    /\ (forall l, (l < length (beliefs w))%nat ->
          beliefs w' !! l = beliefs w !! l)
    /\ length (beliefs w') = S (S (length (beliefs w))).
Proof.
  set (l1 := length (beliefs w)).
  set (w0 := set_beliefs (beliefs w ++ [Particles []; Particles []]) w).
  assert (Hb0 : beliefs w0 = beliefs w ++ [Particles []; Particles []])
    by (by destruct w).
  assert (Hl1 : beliefs w0 !! l1 = Some (Particles []))
    by (by rewrite Hb0, lookup_app_r, Nat.sub_diag).
  assert (Hl2 : beliefs w0 !! S l1 = Some (Particles [])).
  { rewrite Hb0, lookup_app_r by (unfold l1; lia).
    by replace (S l1 - length (beliefs w))%nat with 1%nat by (unfold l1; lia). }
  destruct (two_built_then_add w0 (_num_visits_init self) (_value_init self)
              (VBelief l1) (VBelief (S l1)) l1 [] s eq_refl Hl1)
    as (w' & Hrun & Hn1 & Hat & Hn2 & Hframe).
  assert (Hvs : vnodes w0 = vnodes w) by (by destruct w).
  rewrite Hvs in *.
  assert (Hlen : length (beliefs w') = length (beliefs w0)).
  { destruct (Nat.lt_total (length (beliefs w')) (length (beliefs w0)))
      as [Hlt|[Heq|Hgt]]; [| done |].
    - assert (length (beliefs w') <> l1) as Hne.
      { intros Heq. unfold particles_at in Hat.
        rewrite lookup_ge_None_2 in Hat by lia. done. }
      pose proof (Hframe (length (beliefs w')) Hne) as Hf.
      rewrite lookup_ge_None_2 in Hf by lia.
      symmetry in Hf. apply lookup_ge_None_1 in Hf. lia.
    - assert (length (beliefs w0) <> l1) as Hne
        by (rewrite Hb0, length_app; simpl; unfold l1; lia).
      pose proof (Hframe (length (beliefs w0)) Hne) as Hf.
      rewrite (lookup_ge_None_2 (beliefs w0)) in Hf by lia.
      apply lookup_ge_None_1 in Hf. lia. }
  exists w'. split; [| split; [done | split; [| split]]].
  - rewrite <- Hrun.
    unfold two_VNodes_then_add, _VNode, bind at 1 2, new_belief.
    rewrite VNodeParticles_spec. unfold bind at 1 2.
    rewrite VNodeParticles_spec.
    unfold w0, l1. destruct w; simpl. rewrite !length_app. simpl.
    rewrite <- !app_assoc. simpl. by rewrite !Nat.add_1_r.
  - rewrite Hn2. unfold particles_at. by rewrite Hframe, Hl2 by lia.
  - intros l Hl. rewrite Hframe by (unfold l1; lia).
    by rewrite Hb0, lookup_app_l.
  - rewrite Hlen, Hb0, length_app. simpl. lia.
Qed.

(** *** Sampling the root's belief *)

(** X5.  [_sample_belief] draws from the belief of the node under the
    agent's tree handle, not from the agent's own belief: when that
    belief is a collection [ps] that is not empty, it returns the element
    of [ps] at the index the generator's next draw picks, and the store is
    the one of the call with one more draw consumed. *)
Theorem sample_belief_draws_from_root w ps :
  root_particles w = Some ps ->
  ps <> [] ->
  exists s,
    _sample_belief w = Ok s (set_rng_pos (S (rng_pos w)) w)
    /\ ps !! (rng w (rng_pos w) `mod` length ps)%nat = Some s
    /\ s ∈ ps.
Proof.
  unfold root_particles, root_node. intros Hroot Hne.
  destruct (the_tree w) as [[r|]|] eqn:Ht; [| done | done].
  destruct (vnodes w !! r) as [v|] eqn:Hr; [| done]. simpl in Hroot.
  destruct (particles_at_inv _ _ _ Hroot) as (l & Hb & Hl).
  destruct (pick_nonempty ps (rng w (rng_pos w)) Hne) as (s & Hs & Hin).
  exists s. split; [| done].
  unfold _sample_belief, bind at 1, get. rewrite Ht.
  unfold bind, deref. rewrite Hr, Hb. by apply random_particles with ps.
Qed.

(** *** Further properties of the reinvigoration *)

Lemma reinvigorated_facts w ps (N : Z) f :
  beliefs (reinvigorated w ps N f)
    = beliefs w ++ [Particles (reinvigorated_particles (rng w) (rng_pos w)
                                 ps N f)]
  /\ stdout (reinvigorated w ps N f)
     = stdout w ++ (if Z.of_nat (length ps) >? N then []
                    else [reinvigoration_notice (N - Z.of_nat (length ps))])
  /\ rng_pos (reinvigorated w ps N f)
     = (rng_pos w + Z.to_nat (N - Z.of_nat (length ps)))%nat
  /\ rng (reinvigorated w ps N f) = rng w
  /\ agent (reinvigorated w ps N f) = agent w
  /\ vnodes (reinvigorated w ps N f) = vnodes w
  /\ dicts (reinvigorated w ps N f) = dicts w
  /\ qnodes (reinvigorated w ps N f) = qnodes w.
Proof.
  unfold reinvigorated, reinvigorated_particles.
  destruct (Z.gtb_spec (Z.of_nat (length ps)) N); destruct w; simpl;
    repeat split; try done.
  - by rewrite app_nil_r.
  - replace (Z.to_nat (N - Z.of_nat (length ps))) with 0%nat by lia. lia.
Qed.

Lemma reinvigorated_particles_length rng pos ps (N : Z) f :
  ps <> [] ->
  Z.of_nat (length (reinvigorated_particles rng pos ps N f))
  = Z.max (Z.of_nat (length ps)) N.
Proof.
  intros Hne. unfold reinvigorated_particles.
  destruct (Z.gtb_spec (Z.of_nat (length ps)) N); [lia |].
  rewrite length_app, length_fmap, draws_length by done. lia.
Qed.

Lemma reinvigorated_particles_nonempty rng pos ps (N : Z) f :
  ps <> [] -> reinvigorated_particles rng pos ps N f <> [].
Proof.
  intros Hne. unfold reinvigorated_particles.
  destruct (Z.of_nat (length ps) >? N); [done |]. by destruct ps.
Qed.

(** [_particle_reinvigoration] on a collection that is not empty, by the
    particles it returns. *)
Lemma reinvigoration_returns w l ps (a : Action) (o : Observation) (N : Z) f :
  beliefs w !! l = Some (Particles ps) -> ps <> [] ->
  _particle_reinvigoration (VBelief l) a o N f w
    = Ok (VBelief (length (beliefs w))) (reinvigorated w ps N f)
  /\ beliefs (reinvigorated w ps N f) !! length (beliefs w)
     = Some (Particles (reinvigorated_particles (rng w) (rng_pos w) ps N f)).
Proof.
  intros Hl Hne. split; [by apply reinvigoration_spec |].
  destruct (reinvigorated_facts w ps N f) as (-> & _).
  by rewrite lookup_app_r, Nat.sub_diag.
Qed.

(** X6.  Reinvigorating twice to the same target gives what reinvigorating
    once gives: the second call, on the result of the first, returns a
    third object with the same particles and draws nothing, whatever
    transform it is given. *)
Theorem reinvigoration_twice w l ps (a : Action) (o : Observation) (N : Z)
    f g :
  beliefs w !! l = Some (Particles ps) ->
  ps <> [] ->
  exists b1 w1 b2 w2 qs,
    _particle_reinvigoration (VBelief l) a o N f w = Ok b1 w1
    /\ _particle_reinvigoration b1 a o N g w1 = Ok b2 w2
    /\ particles_at w1 b1 = Some qs
    /\ particles_at w2 b2 = Some qs
    /\ particles_at w2 b1 = Some qs
    /\ b1 <> b2
    /\ rng_pos w2 = rng_pos w1.
Proof.
  intros Hl Hne.
  set (qs := reinvigorated_particles (rng w) (rng_pos w) ps N f).
  set (w1 := reinvigorated w ps N f).
  destruct (reinvigoration_returns w l ps a o N f Hl Hne) as [Hrun1 Hnew1].
  fold w1 qs in Hrun1, Hnew1.
  assert (Hqs : qs <> []) by (by apply reinvigorated_particles_nonempty).
  assert (Hlen : Z.of_nat (length qs) = Z.max (Z.of_nat (length ps)) N)
    by (by apply reinvigorated_particles_length).
  destruct (reinvigoration_returns w1 (length (beliefs w)) qs a o N g
              Hnew1 Hqs) as [Hrun2 Hnew2].
  assert (Hsame : reinvigorated_particles (rng w1) (rng_pos w1) qs N g = qs).
  { unfold reinvigorated_particles.
    destruct (Z.gtb_spec (Z.of_nat (length qs)) N); [done |].
    replace (Z.to_nat (N - Z.of_nat (length qs))) with 0%nat by lia.
    unfold draws. simpl. by rewrite app_nil_r. }
  rewrite Hsame in Hnew2.
  destruct (reinvigorated_facts w ps N f) as (Hb1 & _).
  destruct (reinvigorated_facts w1 qs N g) as (Hb2 & _ & Hpos2 & _).
  fold w1 in Hb1.
  assert (Hl1 : length (beliefs w1) = S (length (beliefs w)))
    by (rewrite Hb1, length_app; simpl; lia).
  exists (VBelief (length (beliefs w))), w1, (VBelief (length (beliefs w1))),
    (reinvigorated w1 qs N g), qs.
  split; [done |]. split; [done |].
  split; [by unfold particles_at; rewrite Hnew1 |].
  split; [by unfold particles_at; rewrite Hnew2 |].
  split.
  { unfold particles_at. rewrite Hb2, lookup_app_l by lia. by rewrite Hnew1. }
  split; [intros [=]; lia |].
  rewrite Hpos2. lia.
Qed.

(** X7.  Reinvigoration keeps every property of states that the transform
    keeps: if it holds of all particles given, it holds of all particles
    returned.  Without a transform every particle returned is one of the
    particles given, so the set of distinct states does not grow. *)
Theorem reinvigoration_preserves_invariant (P : State -> Prop) w l ps
    (a : Action) (o : Observation) (N : Z) f :
  beliefs w !! l = Some (Particles ps) ->
  ps <> [] ->
  Forall P ps ->
  (forall s, P s -> P (transformed f s)) ->
  exists b w' qs,
    _particle_reinvigoration (VBelief l) a o N f w = Ok b w'
    /\ particles_at w' b = Some qs
    /\ Forall P qs
    /\ (f = None -> forall s, s ∈ qs -> s ∈ ps).
Proof.
  intros Hl Hne HP Hf.
  destruct (reinvigoration_returns w l ps a o N f Hl Hne) as [Hrun Hnew].
  exists (VBelief (length (beliefs w))), (reinvigorated w ps N f),
    (reinvigorated_particles (rng w) (rng_pos w) ps N f).
  split; [done |]. split; [by unfold particles_at; rewrite Hnew |].
  unfold reinvigorated_particles.
  destruct (Z.of_nat (length ps) >? N); [by split |]. split.
  - apply Forall_app. split; [done |].
    apply Forall_fmap, Forall_forall. intros s Hs. apply Hf.
    rewrite Forall_forall in HP. by apply HP, (draws_elem _ _ _ _ _ Hs).
  - intros -> s [Hs|Hs]%elem_of_app; [done |].
    apply list_elem_of_fmap in Hs as (s0 & -> & Hs0).
    by apply (draws_elem _ _ _ _ _ Hs0).
Qed.

(** X8.  On a collection of k > 0 particles and a target N, the notice is
    printed exactly when k is at most N, also when k is N and nothing is
    missing; it reports N - k.  The call consumes as many draws of the
    generator as particles are missing, and none when k is at least N.
    Nothing else is printed. *)
Theorem reinvigoration_notice_and_draws w l ps (a : Action) (o : Observation)
    (N : Z) f :
  beliefs w !! l = Some (Particles ps) ->
  ps <> [] ->
  exists b w',
    _particle_reinvigoration (VBelief l) a o N f w = Ok b w'
    /\ stdout w'
       = stdout w ++ (if Z.of_nat (length ps) >? N then []
                      else [reinvigoration_notice (N - Z.of_nat (length ps))])
    /\ rng_pos w' = (rng_pos w + Z.to_nat (N - Z.of_nat (length ps)))%nat
    /\ (N <= Z.of_nat (length ps) -> rng_pos w' = rng_pos w).
Proof.
  intros Hl Hne.
  destruct (reinvigoration_returns w l ps a o N f Hl Hne) as [Hrun _].
  destruct (reinvigorated_facts w ps N f) as (_ & Hout & Hpos & _).
  exists (VBelief (length (beliefs w))), (reinvigorated w ps N f).
  split; [done |]. split; [done |]. split; [done |].
  intros Hge. rewrite Hpos. lia.
Qed.

(** *** Further properties of [update] *)

Lemma transplanted_facts w (v : VNode) :
  beliefs (transplanted w v) = beliefs w
  /\ vnodes (transplanted w v)
     = vnodes w ++ [with_history (VHistory (the_history w)) v]
  /\ dicts (transplanted w v) = dicts w ++ [∅]
  /\ qnodes (transplanted w v) = qnodes w
  /\ agent (transplanted w v)
     = mkAgent (the_belief w) (the_init_belief w) (the_history w)
         (Some (Some (length (vnodes w))))
  /\ stdout (transplanted w v) = stdout w
  /\ rng (transplanted w v) = rng w
  /\ rng_pos (transplanted w v) = rng_pos w.
Proof. by destruct w. Qed.

Lemma put_belief_facts (b : val) w :
  beliefs (put_belief b w) = beliefs w
  /\ vnodes (put_belief b w) = vnodes w
  /\ dicts (put_belief b w) = dicts w
  /\ qnodes (put_belief b w) = qnodes w
  /\ agent (put_belief b w)
     = mkAgent b (the_init_belief w) (the_history w) (the_tree w)
  /\ stdout (put_belief b w) = stdout w
  /\ rng_pos (put_belief b w) = rng_pos w.
Proof. by destruct w. Qed.

Lemma copy_installed_facts w r (node : VNode) (o : belief_obj) :
  let w' := set_vnodes (<[r := node]> (vnodes w))
              (set_beliefs (beliefs w ++ [o]) w) in
  beliefs w' = beliefs w ++ [o]
  /\ vnodes w' = <[r := node]> (vnodes w)
  /\ dicts w' = dicts w
  /\ qnodes w' = qnodes w
  /\ agent w' = agent w
  /\ stdout w' = stdout w
  /\ rng_pos w' = rng_pos w.
Proof. by destruct w. Qed.

Lemma child_slot_root w (a : Action) (o : Observation) slot :
  child_slot w a o = Some slot ->
  exists r v, the_tree w = Some (Some r) /\ vnodes w !! r = Some v.
Proof.
  unfold child_slot, root_action_node.
  destruct (the_tree w) as [[r|]|]; [| done | done].
  destruct (vnodes w !! r) as [v|] eqn:Hr; [intros _; by exists r, v |].
  simpl. congruence.
Qed.

(** The store [update] leaves on a well-formed session. *)
Lemma update_final_store
    (POUCT__expand_vnode :
       Planner -> loc -> History -> option State -> val -> M unit)
    (self : Planner) w (a : Action) (o : Observation) (args : PriorArgs) f
    c (child : VNode) ps ips :
  isinstance_Particles (the_belief w) w = true ->
  child_slot w a o = Some (Some c) ->
  vnodes w !! c = Some child ->
  particles_at w (belief child) = Some ps ->
  ps <> [] ->
  particles_at w (the_init_belief w) = Some ips ->
  exists w',
    update POUCT__expand_vnode self a o args f w = Ok tt w'
    /\ beliefs w'
       = beliefs w ++
         [Particles (reinvigorated_particles (rng w) (rng_pos w) ps
                       (Z.of_nat (length ips)) f);
          Particles (reinvigorated_particles (rng w) (rng_pos w) ps
                       (Z.of_nat (length ips)) f)]
    /\ vnodes w'
       = vnodes w ++
         [mkVNode (num_visits child) (value child)
            (VBelief (S (length (beliefs w)))) (children child)
            (Some (VHistory (the_history w)))]
    /\ dicts w' = dicts w ++ [∅]
    /\ qnodes w' = qnodes w
    /\ agent w'
       = mkAgent (VBelief (length (beliefs w))) (the_init_belief w)
           (the_history w) (Some (Some (length (vnodes w)))).
Proof.
  intros Hp Hslot Hc Hps Hne Hips.
  set (N := Z.of_nat (length ips)).
  set (qs := reinvigorated_particles (rng w) (rng_pos w) ps N f).
  set (w1 := transplanted w child).
  set (root1 := with_history (VHistory (the_history w)) child).
  destruct (transplanted_facts w child)
    as (Hb1 & Hv1 & Hd1 & Hq1 & Ha1 & _ & Hrng1 & Hpos1).
  fold w1 root1 in Hb1, Hv1, Hd1, Hq1, Ha1, Hrng1, Hpos1.
  set (R := reinvigorated w1 ps N f).
  destruct (reinvigorated_facts w1 ps N f)
    as (HbR & _ & _ & _ & HaR & HvR & HdR & HqR).
  fold R in HbR, HaR, HvR, HdR, HqR. rewrite Hrng1, Hpos1 in HbR. fold qs in HbR.
  set (w2 := put_belief (VBelief (length (beliefs w1))) R).
  destruct (put_belief_facts (VBelief (length (beliefs w1))) R)
    as (Hb2 & Hv2 & Hd2 & Hq2 & Ha2 & _).
  fold w2 in Hb2, Hv2, Hd2, Hq2, Ha2.
  assert (Hroot1 : root_node w1 = Some root1).
  { unfold root_node.
    assert (the_tree w1 = Some (Some (length (vnodes w)))) as ->
      by (unfold the_tree; by rewrite Ha1).
    by rewrite Hv1, lookup_app_r, Nat.sub_diag. }
  assert (Hstep2 : update_reinvigorate a o f w1 = Ok tt w2).
  { apply (update_reinvigorate_spec _ _ _ _ root1 ps ips); try done.
    all: rewrite (particles_at_beliefs _ _ _ Hb1); try done.
    all: unfold the_init_belief; by rewrite Ha1. }
  assert (Ht2 : the_tree w2 = Some (Some (length (vnodes w)))).
  { unfold the_tree at 1. rewrite Ha2. cbn [agent_tree]. unfold the_tree.
    by rewrite HaR, Ha1. }
  assert (Hr2 : vnodes w2 !! length (vnodes w) = Some root1).
  { by rewrite Hv2, HvR, Hv1, lookup_app_r, Nat.sub_diag. }
  assert (Hlen2 : length (beliefs w2) = S (length (beliefs w))).
  { rewrite Hb2, HbR, Hb1, length_app. simpl. lia. }
  assert (Hqs2 : particles_at w2 (the_belief w2) = Some qs).
  { unfold the_belief. rewrite Ha2. cbn [agent_belief]. unfold particles_at.
    by rewrite Hb2, HbR, lookup_app_r, Nat.sub_diag. }
  set (w3 := set_vnodes
               (<[length (vnodes w) :=
                    with_belief (VBelief (length (beliefs w2))) root1]>
                  (vnodes w2))
               (set_beliefs (beliefs w2 ++ [Particles qs]) w2)).
  destruct (copy_installed_facts w2 (length (vnodes w))
              (with_belief (VBelief (length (beliefs w2))) root1)
              (Particles qs))
    as (Hb3 & Hv3 & Hd3 & Hq3 & Ha3 & _).
  fold w3 in Hb3, Hv3, Hd3, Hq3, Ha3.
  assert (Hstep3 :
    update_finish POUCT__expand_vnode self args w2 = Ok tt w3)
    by (by apply update_finish_spec).
  exists w3. split.
  { unfold update, bind at 1.
    rewrite (update_transplant_spec _ _ _ _ _ Hp Hslot Hc).
    fold w1. unfold bind. by rewrite Hstep2. }
  split; [by rewrite Hb3, Hb2, HbR, Hb1, <- app_assoc |].
  split.
  { rewrite Hv3, Hv2, HvR, Hv1, Hlen2.
    rewrite insert_app_r_alt, Nat.sub_diag by done. by destruct child. }
  split; [by rewrite Hd3, Hd2, HdR |].
  split; [by rewrite Hq3, Hq2, HqR |].
  rewrite Ha3, Ha2. unfold the_init_belief, the_history, the_tree.
  by rewrite HaR, Ha1, Hb1.
Qed.

(** X9.  A returning [update] only creates: the belief objects, nodes,
    dicts and action nodes that existed are all as they were, including
    the agent's previous belief, its initial belief and the promoted
    child.  Two belief objects with the same particles are new, one for
    the agent and one for the root, together with the root node and one
    empty dict.  The particles are the child's, followed when they are
    fewer than the target by transformed draws from them: nothing of the
    agent's previous belief enters the new one.  The agent's history and
    initial belief are not assigned. *)
Theorem update_only_creates
    (POUCT__expand_vnode :
       Planner -> loc -> History -> option State -> val -> M unit)
    (self : Planner) w (a : Action) (o : Observation) (args : PriorArgs) f
    c (child : VNode) ps ips :
  isinstance_Particles (the_belief w) w = true ->
  child_slot w a o = Some (Some c) ->
  vnodes w !! c = Some child ->
  particles_at w (belief child) = Some ps ->
  ps <> [] ->
  particles_at w (the_init_belief w) = Some ips ->
  exists w' qs root,
    update POUCT__expand_vnode self a o args f w = Ok tt w'
    /\ qs = reinvigorated_particles (rng w) (rng_pos w) ps
              (Z.of_nat (length ips)) f
    /\ beliefs w' = beliefs w ++ [Particles qs; Particles qs]
    /\ vnodes w' = vnodes w ++ [root]
    /\ dicts w' = dicts w ++ [∅]
    /\ qnodes w' = qnodes w
    /\ the_belief w' = VBelief (length (beliefs w))
    /\ belief root = VBelief (S (length (beliefs w)))
    /\ the_tree w' = Some (Some (length (vnodes w)))
    /\ the_history w' = the_history w
    /\ the_init_belief w' = the_init_belief w.
Proof.
  intros Hp Hslot Hc Hps Hne Hips.
  destruct (update_final_store POUCT__expand_vnode self w a o args f c child
              ps ips Hp Hslot Hc Hps Hne Hips)
    as (w' & Hrun & Hb & Hv & Hd & Hq & Ha).
  eexists w', _, _. split; [done |]. split; [done |].
  split; [done |]. split; [done |]. split; [done |]. split; [done |].
  unfold the_belief, the_tree, the_history, the_init_belief. by rewrite Ha.
Qed.


(** The second part of [update] on a root without particles. *)
Lemma update_reinvigorate_starved w (a : Action) (o : Observation) f
    (root : VNode) ips :
  root_node w = Some root ->
  particles_at w (belief root) = Some [] ->
  particles_at w (the_init_belief w) = Some ips ->
  update_reinvigorate a o f w
  = Raise particle_deprivation (set_beliefs (beliefs w ++ [Particles []]) w).
Proof.
  unfold root_node. intros Hroot (l & Hb & Hl)%particles_at_inv Hips.
  unfold update_reinvigorate, bind at 1, get at 1.
  destruct (the_tree w) as [[r|]|]; [| done | done].
  unfold bind at 1 2, deref, ret. rewrite Hroot, Hb.
  unfold bind at 1, get at 1. unfold bind at 1.
  rewrite (particles_of_spec _ _ _ Hips). unfold bind at 1.
  by rewrite (reinvigoration_of_nothing _ _ _ _ _ _ Hl).
Qed.

(** X11.  When the child for the real observation exists but holds no
    particles, [update] raises the particle-deprivation error after it has
    assigned the new root: in the store of the failure the agent's tree
    handle is on the new root, a node that did not exist before, while
    the agent's belief and history are those of the call. *)
Theorem update_starved_child_fails_after_transplant
    (POUCT__expand_vnode :
       Planner -> loc -> History -> option State -> val -> M unit)
    (self : Planner) w (a : Action) (o : Observation) (args : PriorArgs) f
    c (child : VNode) ips :
  isinstance_Particles (the_belief w) w = true ->
  child_slot w a o = Some (Some c) ->
  vnodes w !! c = Some child ->
  particles_at w (belief child) = Some [] ->
  particles_at w (the_init_belief w) = Some ips ->
  exists w',
    update POUCT__expand_vnode self a o args f w
      = Raise particle_deprivation w'
    /\ the_tree w' = Some (Some (length (vnodes w)))
    /\ the_tree w' <> the_tree w
    /\ root_node w' = Some (with_history (VHistory (the_history w)) child)
    /\ the_belief w' = the_belief w
    /\ the_history w' = the_history w.
Proof.
  intros Hp Hslot Hc Hps Hips.
  set (w1 := transplanted w child).
  destruct (transplanted_facts w child) as (Hb1 & Hv1 & _ & _ & Ha1 & _).
  fold w1 in Hb1, Hv1, Ha1.
  set (w' := set_beliefs (beliefs w1 ++ [Particles []]) w1).
  assert (Ha' : agent w' = agent w1) by (unfold w'; by destruct w1).
  assert (Hv' : vnodes w' = vnodes w1) by (unfold w'; by destruct w1).
  assert (Hroot1 : root_node w1
                   = Some (with_history (VHistory (the_history w)) child)).
  { unfold root_node.
    assert (the_tree w1 = Some (Some (length (vnodes w)))) as ->
      by (unfold the_tree; by rewrite Ha1).
    by rewrite Hv1, lookup_app_r, Nat.sub_diag. }
  exists w'. split.
  { unfold update, bind at 1.
    rewrite (update_transplant_spec _ _ _ _ _ Hp Hslot Hc). fold w1.
    unfold bind at 1.
    rewrite (update_reinvigorate_starved _ _ _ _
               (with_history (VHistory (the_history w)) child) ips);
      [done | done | |].
    - by rewrite (particles_at_beliefs _ _ _ Hb1).
    - rewrite (particles_at_beliefs _ _ _ Hb1).
      unfold the_init_belief. by rewrite Ha1. }
  assert (Ht' : the_tree w' = Some (Some (length (vnodes w))))
    by (unfold the_tree; by rewrite Ha', Ha1).
  split; [done |]. split.
  { rewrite Ht'. destruct (child_slot_root _ _ _ _ Hslot) as (r & v & -> & Hr).
    apply lookup_lt_Some in Hr. intros [=]. lia. }
  split.
  { unfold root_node. rewrite Ht', Hv'.
    by rewrite Hv1, lookup_app_r, Nat.sub_diag. }
  unfold the_belief, the_history. by rewrite Ha', Ha1.
Qed.

(** X13.  The tree is reused.  After a returning [update], what the new
    root holds for any action and observation is what the promoted child
    held for them before the call: the root has the child's dict of
    action nodes, not a copy and not an empty one. *)
Theorem update_reuses_subtree
    (POUCT__expand_vnode :
       Planner -> loc -> History -> option State -> val -> M unit)
    (self : Planner) w (a : Action) (o : Observation) (args : PriorArgs) f
    c (child : VNode) ps ips :
  isinstance_Particles (the_belief w) w = true ->
  child_slot w a o = Some (Some c) ->
  vnodes w !! c = Some child ->
  particles_at w (belief child) = Some ps ->
  ps <> [] ->
  particles_at w (the_init_belief w) = Some ips ->
  exists w',
    update POUCT__expand_vnode self a o args f w = Ok tt w'
    /\ forall a2 o2, child_slot w' a2 o2 = node_slot w c a2 o2.
Proof.
  intros Hp Hslot Hc Hps Hne Hips.
  destruct (update_final_store POUCT__expand_vnode self w a o args f c child
              ps ips Hp Hslot Hc Hps Hne Hips)
    as (w' & Hrun & _ & Hv & Hd & Hq & Ha).
  exists w'. split; [done |]. intros a2 o2.
  unfold child_slot, root_action_node, node_slot, the_tree.
  rewrite Ha, Hc. cbn [agent_tree].
  rewrite Hv, lookup_app_r, Nat.sub_diag, Hd, Hq by done. simpl.
  destruct (dicts w !! children child) as [d|] eqn:Hdict.
  - rewrite lookup_app_l, Hdict by (by eapply lookup_lt_Some). simpl.
    by destruct (d !! a2) as [q|]; simpl; [destruct (qnodes w !! q) |].
  - apply lookup_ge_None in Hdict.
    destruct ((dicts w ++ [∅]) !! children child) as [d|] eqn:Hnew;
      [| done].
    rewrite lookup_app_r in Hnew by done.
    apply list_lookup_singleton_Some in Hnew as [_ <-]. simpl.
    by rewrite lookup_empty.
Qed.

(** X10.  With a particle belief and a [tree] attribute that is set to
    [None], [update] passes the test for the attribute and fails at the
    first indexing, in the store of the call; the branch for a tree that
    is [None] is not what handles this case. *)
Theorem update_tree_None_not_subscriptable
    (POUCT__expand_vnode :
       Planner -> loc -> History -> option State -> val -> M unit)
    (self : Planner) w (a : Action) (o : Observation) (args : PriorArgs) f :
  isinstance_Particles (the_belief w) w = true ->
  the_tree w = Some None ->
  update POUCT__expand_vnode self a o args f w = Raise not_subscriptable w.
Proof.
  intros Hp Ht.
  unfold update, update_transplant, bind at 1 2 3 4, get. rewrite Hp.
  cbn [negb]. rewrite Ht. unfold bind at 1, tree_getitem2, bind at 1, get.
  by rewrite Ht.
Qed.

End Proofs.

(** ** The theorems at work on the small session *)

(** C2.  The claim fails for the constructor's own default.  In the
    session, two nodes are built without a belief argument and the state 9
    is added to the belief of the first: the belief of the second, to
    which nothing was added, holds 9 as well. *)
Theorem VNodeParticles_default_belief_is_shared :
  match two_nodes_then_add 1 0 9%nat (ex_planned 0) with
  | Ok (n1, n2) w' =>
      n1 = 3%nat /\ n2 = 4%nat
      /\ node_particles w' n1 = Some [9%nat]
      /\ node_particles w' n2 = Some [9%nat]
  | _ => False
  end.
Proof. vm_compute. repeat split. Qed.

(** Runs of the session.  With observation 0 the child's single particle 5
    is copied and one more is drawn from it; the notice is printed, the
    agent's belief and the root's are two new objects. *)
Example update_run :
  (returned (update ex_expand_vnode ex_self 0%nat 0%nat tt None (ex_planned 0))
   ≫= fun w => Some (stdout w, the_tree w, root_particles w,
                     the_belief w, particles_at w (the_belief w)))
  = Some (["Particle reinvigoration for 1 particles"], Some (Some 3%nat),
          Some [5; 5]%nat, VBelief 9, Some [5; 5]%nat).
Proof. vm_compute. reflexivity. Qed.

(** Three particles raised to five with the successor as transform: the
    generator's draws 0 and 1 pick 5 and 6. *)
Example reinvigoration_run :
  (returned (_particle_reinvigoration (VBelief 6) 0%nat 0%nat 5 (Some S)
               (ex_planned 0))
   ≫= fun w => particles_at w (VBelief 9))
  = Some [5; 6; 7; 6; 7]%nat.
Proof. vm_compute. reflexivity. Qed.

(** An observation without an entry is answered like the marker, and an
    action without an entry makes the second indexing fail. *)
Example update_unknown_observation :
  update ex_expand_vnode ex_self 0%nat 7%nat tt None (ex_planned 7)
  = Raise particle_deprivation (ex_planned 7).
Proof. vm_compute. reflexivity. Qed.

Example update_unknown_action :
  update ex_expand_vnode ex_self 5%nat 0%nat tt None (ex_planned 0)
  = Raise not_subscriptable (ex_planned 0).
Proof. vm_compute. reflexivity. Qed.

(** A counterexample to C1 as stated: in the session, the child for
    observation 2 holds three particles and the initial belief two; the
    call satisfies the precondition and returns, and the new root's belief
    has three particles, not two. *)
Lemma update_keeps_oversized_belief :
  isinstance_Particles (the_belief (ex_planned 2)) (ex_planned 2) = true
  /\ child_slot (ex_planned 2) 0%nat 2%nat = Some (Some 2%nat)
  /\ the_history (ex_planned 2) = [] ++ [(0, 2)%nat]
  /\ target_count (ex_planned 2) = Some 2
  /\ (returned (update ex_expand_vnode ex_self 0%nat 2%nat tt None
                  (ex_planned 2))
       ≫= root_belief_size) = Some 3.
Proof. vm_compute. repeat split. Qed.


(** The amended C1 on the session: observation 0, whose child holds one
    particle, below the two of the initial belief. *)
Lemma update_installs_reinvigorated_root_witness :
  ((exists w',
      update ex_expand_vnode ex_self 0%nat 0%nat tt None (ex_planned 0)
      = Ok tt w')
   <-> isinstance_Particles (the_belief (ex_planned 0)) (ex_planned 0) = true
       /\ [5%nat] <> [] /\ is_Some (target_count (ex_planned 0)))
  /\ forall w',
      update ex_expand_vnode ex_self 0%nat 0%nat tt None (ex_planned 0)
      = Ok tt w' ->
      exists root qs N,
        target_count (ex_planned 0) = Some N
        /\ root_node w' = Some root
        /\ history root = Some (VHistory ([] ++ [(0, 0)%nat]))
        /\ num_visits root = 2
        /\ value root = 0
        /\ children root = 1%nat
        /\ root_particles w' = Some qs
        /\ Z.of_nat (length qs) = Z.max (Z.of_nat (length [5%nat])) N
        /\ particles_at w' (the_belief w') = Some qs
        /\ belief root <> the_belief w'
        /\ the_history w' = [] ++ [(0, 0)%nat].
Proof.
  apply (update_installs_reinvigorated_root ex_expand_vnode ex_self
           (ex_planned 0) 0%nat 0%nat tt None 1%nat
           (mkVNode 2 0 (VBelief 5) 1%nat None) [5%nat] []).
  - vm_compute; reflexivity.
  - reflexivity.
  - reflexivity.
  - reflexivity.
Defined.

(** C3 on the session before any [plan]. *)
Lemma update_without_tree_is_noop_witness :
  exists w',
    update ex_expand_vnode ex_self 0%nat 0%nat tt None
      (ex_world (VBelief 2) 0 None) = Ok tt w'
    /\ stdout w' = stdout (ex_world (VBelief 2) 0 None) ++ [no_tree_warning]
    /\ agent w' = agent (ex_world (VBelief 2) 0 None)
    /\ beliefs w' = beliefs (ex_world (VBelief 2) 0 None)
    /\ vnodes w' = vnodes (ex_world (VBelief 2) 0 None)
    /\ dicts w' = dicts (ex_world (VBelief 2) 0 None)
    /\ qnodes w' = qnodes (ex_world (VBelief 2) 0 None).
Proof.
  apply (update_without_tree_is_noop ex_expand_vnode ex_self
           (ex_world (VBelief 2) 0 None) 0%nat 0%nat tt None);
    reflexivity.
Defined.

(** C4 on the session: one particle, target three, the successor function
    as transform. *)
Lemma reinvigoration_fills_to_target_witness :
  exists w' new,
    _particle_reinvigoration (VBelief 5) 0%nat 0%nat 3 (Some S) (ex_planned 0)
      = Ok (VBelief (length (beliefs (ex_planned 0)))) w'
    /\ particles_at w' (VBelief (length (beliefs (ex_planned 0))))
       = Some ([5%nat] ++ new)
    /\ Z.of_nat (length ([5%nat] ++ new)) = 3
    /\ Z.of_nat (length new) = 3 - Z.of_nat (length [5%nat])
    /\ (forall i : nat, (i < length new)%nat ->
          exists s,
            [5%nat] !! (rng (ex_planned 0) (rng_pos (ex_planned 0) + i)%nat
                          `mod` length [5%nat])%nat = Some s
            /\ new !! i = Some (transformed (Some S) s))
    /\ (forall s', s' ∈ new ->
          exists s, s ∈ [5%nat] /\ s' = transformed (Some S) s)
    /\ particles_at w' (VBelief 5) = Some [5%nat].
Proof.
  apply (reinvigoration_fills_to_target (ex_planned 0) 5%nat [5%nat]
           0%nat 0%nat 3 (Some S)).
  - reflexivity.
  - discriminate.
  - simpl; lia.
Defined.

(** C5 on the session: observation 1 holds the marker. *)
Lemma update_marker_deprivation_witness :
  update ex_expand_vnode ex_self 0%nat 1%nat tt None (ex_planned 1)
  = Raise particle_deprivation (ex_planned 1).
Proof.
  apply (update_marker_deprivation ex_expand_vnode ex_self (ex_planned 1)
           0%nat 1%nat tt None).
  - vm_compute; reflexivity.
  - vm_compute; reflexivity.
Defined.

(** C6 on the session: three particles, target two. *)
Lemma reinvigoration_keeps_large_belief_witness :
  exists w',
    _particle_reinvigoration (VBelief 6) 0%nat 2%nat 2 None (ex_planned 2)
      = Ok (VBelief (length (beliefs (ex_planned 2)))) w'
    /\ 6%nat <> length (beliefs (ex_planned 2))
    /\ beliefs w'
       = beliefs (ex_planned 2) ++ [Particles [5; 6; 7]%nat]
    /\ particles_at w' (VBelief (length (beliefs (ex_planned 2))))
       = Some [5; 6; 7]%nat
    /\ particles_at w' (VBelief 6) = Some [5; 6; 7]%nat
    /\ rng_pos w' = rng_pos (ex_planned 2)
    /\ (forall s, exists w'',
          add (VBelief (length (beliefs (ex_planned 2)))) s w' = Ok tt w''
          /\ particles_at w'' (VBelief (length (beliefs (ex_planned 2))))
             = Some ([5; 6; 7]%nat ++ [s])
          /\ particles_at w'' (VBelief 6) = Some [5; 6; 7]%nat)
    /\ (forall s, exists w'',
          add (VBelief 6) s w' = Ok tt w''
          /\ particles_at w'' (VBelief 6) = Some ([5; 6; 7]%nat ++ [s])
          /\ particles_at w'' (VBelief (length (beliefs (ex_planned 2))))
             = Some [5; 6; 7]%nat).
Proof.
  apply (reinvigoration_keeps_large_belief (ex_planned 2) 6%nat
           [5; 6; 7]%nat 0%nat 2%nat 2 None).
  - reflexivity.
  - lia.
  - simpl; lia.
Defined.

(** C7 on the session: the empty collection at reference 7. *)
Lemma reinvigoration_empty_deprivation_witness :
  _particle_reinvigoration (VBelief 7) 0%nat 0%nat 2 None (ex_planned 0)
  = Raise particle_deprivation
      (set_beliefs (beliefs (ex_planned 0) ++ [Particles []]) (ex_planned 0)).
Proof.
  apply (reinvigoration_empty_deprivation (ex_planned 0) 7%nat 0%nat 0%nat 2
           None).
  reflexivity.
Defined.

(** C9 on the session: at depth 1 the state 9 joins the two particles of
    the root; at depth 2 nothing is added. *)
Lemma simulate_deposits_state_at_depth_one_witness :
  _simulate ex_simulate ex_self 9%nat [] (Some 0%nat) None None 1 tt
    (ex_planned 0)
  = Ok 7 (set_beliefs
            (<[4%nat := Particles ([1; 2]%nat ++ [9%nat])]>
               (beliefs (ex_planned 0))) (ex_planned 0))
  /\ _simulate ex_simulate ex_self 9%nat [] (Some 0%nat) None None 2 tt
       (ex_planned 0)
     = Ok 7 (ex_planned 0).
Proof.
  split.
  - apply (proj1 (simulate_deposits_state_at_depth_one ex_simulate ex_self
                    9%nat [] (Some 0%nat) None None 1 tt
                    (ex_planned 0) (ex_planned 0) 7 eq_refl)
             0%nat (mkVNode 4 0 (VBelief 4) 0%nat (Some (VHistory [])))
             4%nat [1; 2]%nat); reflexivity.
  - apply (proj2 (simulate_deposits_state_at_depth_one ex_simulate ex_self
                    9%nat [] (Some 0%nat) None None 2 tt
                    (ex_planned 0) (ex_planned 0) 7 eq_refl)).
    left. lia.
Defined.

(** C10 on the session. *)
Lemma update_fresh_root_branch_unreachable_witness :
  exists r root,
    the_tree (transplanted (ex_planned 0) (mkVNode 2 0 (VBelief 5) 1%nat None))
      = Some (Some r)
    /\ vnodes (transplanted (ex_planned 0)
                 (mkVNode 2 0 (VBelief 5) 1%nat None)) !! r = Some root
    /\ (forall w2,
          update_reinvigorate 0%nat 0%nat None
            (transplanted (ex_planned 0) (mkVNode 2 0 (VBelief 5) 1%nat None))
            = Ok tt w2 ->
          the_tree w2 = Some (Some r)
          /\ update_finish ex_expand_vnode ex_self tt w2
             = bind (get the_belief)
                 (fun b => bind (deepcopy b) (fun b' => set_belief_attr r b'))
                 w2)
    /\ (forall expand',
          update expand' ex_self 0%nat 0%nat tt None (ex_planned 0)
          = update ex_expand_vnode ex_self 0%nat 0%nat tt None (ex_planned 0)).
Proof.
  apply (update_fresh_root_branch_unreachable ex_expand_vnode ex_self
           (ex_planned 0)
           (transplanted (ex_planned 0) (mkVNode 2 0 (VBelief 5) 1%nat None))
           0%nat 0%nat tt None).
  vm_compute; reflexivity.
Defined.

(** C8 on the session, with the particle belief and with the agent's belief
    replaced by the object at reference 8, which is no particle belief. *)
Lemma representation_mismatch_guard_witness :
  (plan ex_plan ex_self tt (ex_planned 0) = ex_plan ex_self tt (ex_planned 0)
   /\ update ex_expand_vnode ex_self 0%nat 0%nat tt None (ex_planned 0)
      <> OutOfFuel
   /\ forall w',
        update ex_expand_vnode ex_self 0%nat 0%nat tt None (ex_planned 0)
        <> Raise representation_mismatch w')
  /\ plan ex_plan ex_self tt (ex_world (VBelief 8) 0 (Some (Some 0%nat)))
     = Raise representation_mismatch
         (ex_world (VBelief 8) 0 (Some (Some 0%nat)))
  /\ update ex_expand_vnode ex_self 0%nat 0%nat tt None
       (ex_world (VBelief 8) 0 (Some (Some 0%nat)))
     = Raise representation_mismatch
         (ex_world (VBelief 8) 0 (Some (Some 0%nat))).
Proof.
  split.
  - exact (representation_mismatch_guard ex_plan ex_expand_vnode ex_self
             (ex_planned 0) 0%nat 0%nat tt None).
  - exact (representation_mismatch_guard ex_plan ex_expand_vnode ex_self
             (ex_world (VBelief 8) 0 (Some (Some 0%nat))) 0%nat 0%nat tt None).
Defined.

(** ** The further properties on the small session *)

(** X1 on the session: the child for observation 0 made a root by hand. *)
Lemma from_vnode_shares_belief_and_children_witness :
  exists w1 r root,
    from_vnode (Some 1%nat) (VHistory [(0, 0)%nat]) (ex_planned 0) = Ok r w1
    /\ r <> 1%nat
    /\ vnodes w1 !! r = Some root
    /\ vnodes w1 !! 1%nat = Some (mkVNode 2 0 (VBelief 5) 1%nat None)
    /\ history root = Some (VHistory [(0, 0)%nat])
    /\ num_visits root = 2
    /\ value root = 0
    /\ belief root = VBelief 5
    /\ children root = 1%nat
    /\ beliefs w1 = beliefs (ex_planned 0)
    /\ agent w1 = agent (ex_planned 0)
    /\ exists w2,
         add (belief root) 9%nat w1 = Ok tt w2
         /\ node_particles w2 r = Some ([5%nat] ++ [9%nat])
         /\ node_particles w2 1%nat = Some ([5%nat] ++ [9%nat]).
Proof.
  apply (from_vnode_shares_belief_and_children (ex_planned 0) 1%nat
           (mkVNode 2 0 (VBelief 5) 1%nat None) (VHistory [(0, 0)%nat])
           5%nat [5%nat] 9%nat); reflexivity.
Defined.

(** X2 on the session: a root built for the agent. *)
Lemma VNode_hook_with_agent_copies_belief_witness :
  (exists w1 node,
     _VNode ex_self true true (ex_planned 0)
       = Ok (length (vnodes (ex_planned 0))) w1
     /\ vnodes w1 = vnodes (ex_planned 0) ++ [node]
     /\ history node = Some (VHistory (the_history (ex_planned 0)))
     /\ num_visits node = 1
     /\ value node = 0
     /\ belief node = VBelief (length (beliefs (ex_planned 0)))
     /\ belief node <> the_belief (ex_planned 0)
     /\ dicts w1 !! children node = Some ∅
     /\ beliefs w1 = beliefs (ex_planned 0) ++ [Particles [1; 2]%nat]
     /\ agent w1 = agent (ex_planned 0)
     /\ exists w2,
          add (belief node) 9%nat w1 = Ok tt w2
          /\ node_particles w2 (length (vnodes (ex_planned 0)))
             = Some ([1; 2]%nat ++ [9%nat])
          /\ particles_at w2 (the_belief w2) = Some [1; 2]%nat)
  /\ _VNode ex_self false true (ex_planned 0)
     = Raise (no_attribute "history") (ex_planned 0).
Proof.
  apply (VNode_hook_with_agent_copies_belief ex_self true (ex_planned 0)
           [1; 2]%nat 9%nat).
  reflexivity.
Defined.

(** X5 on the session: the root's belief holds 1 and 2. *)
Lemma sample_belief_draws_from_root_witness :
  exists s,
    _sample_belief (ex_planned 0)
      = Ok s (set_rng_pos (S (rng_pos (ex_planned 0))) (ex_planned 0))
    /\ [1; 2]%nat !! (rng (ex_planned 0) (rng_pos (ex_planned 0))
                        `mod` length [1; 2]%nat)%nat = Some s
    /\ s ∈ [1; 2]%nat.
Proof.
  apply (sample_belief_draws_from_root (ex_planned 0) [1; 2]%nat).
  - reflexivity.
  - discriminate.
Defined.

(** X6 on the session: one particle, target three, twice. *)
Lemma reinvigoration_twice_witness :
  exists b1 w1 b2 w2 qs,
    _particle_reinvigoration (VBelief 5) 0%nat 0%nat 3 (Some S) (ex_planned 0)
      = Ok b1 w1
    /\ _particle_reinvigoration b1 0%nat 0%nat 3 None w1 = Ok b2 w2
    /\ particles_at w1 b1 = Some qs
    /\ particles_at w2 b2 = Some qs
    /\ particles_at w2 b1 = Some qs
    /\ b1 <> b2
    /\ rng_pos w2 = rng_pos w1.
Proof.
  apply (reinvigoration_twice (ex_planned 0) 5%nat [5%nat] 0%nat 0%nat 3
           (Some S) None).
  - reflexivity.
  - discriminate.
Defined.

(** X7 on the session: states at least 5 stay at least 5 under the
    successor. *)
Lemma reinvigoration_preserves_invariant_witness :
  exists b w' qs,
    _particle_reinvigoration (VBelief 5) 0%nat 0%nat 3 (Some S) (ex_planned 0)
      = Ok b w'
    /\ particles_at w' b = Some qs
    /\ Forall (fun s => 5 <= s)%nat qs
    /\ (Some S = None -> forall s, s ∈ qs -> s ∈ [5%nat]).
Proof.
  apply (reinvigoration_preserves_invariant (fun s => 5 <= s)%nat
           (ex_planned 0) 5%nat [5%nat] 0%nat 0%nat 3 (Some S)).
  - reflexivity.
  - discriminate.
  - repeat constructor.
  - intros s Hs. simpl. lia.
Defined.

(** X8 on the session: one particle and target one, so nothing is missing,
    and the notice says so. *)
Lemma reinvigoration_notice_and_draws_witness :
  exists b w',
    _particle_reinvigoration (VBelief 5) 0%nat 0%nat 1 None (ex_planned 0)
      = Ok b w'
    /\ stdout w'
       = stdout (ex_planned 0) ++
         (if Z.of_nat (length [5%nat]) >? 1 then []
          else [reinvigoration_notice (1 - Z.of_nat (length [5%nat]))])
    /\ rng_pos w'
       = (rng_pos (ex_planned 0)
          + Z.to_nat (1 - Z.of_nat (length [5%nat])))%nat
    /\ (1 <= Z.of_nat (length [5%nat]) -> rng_pos w' = rng_pos (ex_planned 0)).
Proof.
  apply (reinvigoration_notice_and_draws (ex_planned 0) 5%nat [5%nat]
           0%nat 0%nat 1 None).
  - reflexivity.
  - discriminate.
Defined.

(** X9 on the session. *)
Lemma update_only_creates_witness :
  exists w' qs root,
    update ex_expand_vnode ex_self 0%nat 0%nat tt None (ex_planned 0)
      = Ok tt w'
    /\ qs = reinvigorated_particles (rng (ex_planned 0))
              (rng_pos (ex_planned 0)) [5%nat]
              (Z.of_nat (length [1; 2]%nat)) None
    /\ beliefs w' = beliefs (ex_planned 0) ++ [Particles qs; Particles qs]
    /\ vnodes w' = vnodes (ex_planned 0) ++ [root]
    /\ dicts w' = dicts (ex_planned 0) ++ [∅]
    /\ qnodes w' = qnodes (ex_planned 0)
    /\ the_belief w' = VBelief (length (beliefs (ex_planned 0)))
    /\ belief root = VBelief (S (length (beliefs (ex_planned 0))))
    /\ the_tree w' = Some (Some (length (vnodes (ex_planned 0))))
    /\ the_history w' = the_history (ex_planned 0)
    /\ the_init_belief w' = the_init_belief (ex_planned 0).
Proof.
  apply (update_only_creates ex_expand_vnode ex_self (ex_planned 0)
           0%nat 0%nat tt None 1%nat (mkVNode 2 0 (VBelief 5) 1%nat None)
           [5%nat] [1; 2]%nat).
  - vm_compute; reflexivity.
  - vm_compute; reflexivity.
  - reflexivity.
  - reflexivity.
  - discriminate.
  - reflexivity.
Defined.

(** X10 on the session with the tree attribute set to [None]. *)
Lemma update_tree_None_not_subscriptable_witness :
  update ex_expand_vnode ex_self 0%nat 0%nat tt None
    (ex_world (VBelief 2) 0 (Some None))
  = Raise not_subscriptable (ex_world (VBelief 2) 0 (Some None)).
Proof.
  apply (update_tree_None_not_subscriptable ex_expand_vnode ex_self
           (ex_world (VBelief 2) 0 (Some None)) 0%nat 0%nat tt None);
    reflexivity.
Defined.

(** X11 on the session whose child for observation 0 is empty. *)
Lemma update_starved_child_fails_after_transplant_witness :
  exists w',
    update ex_expand_vnode ex_self 0%nat 0%nat tt None ex_starved
      = Raise particle_deprivation w'
    /\ the_tree w' = Some (Some (length (vnodes ex_starved)))
    /\ the_tree w' <> the_tree ex_starved
    /\ root_node w'
       = Some (with_history (VHistory (the_history ex_starved))
                 (mkVNode 2 0 (VBelief 5) 1%nat None))
    /\ the_belief w' = the_belief ex_starved
    /\ the_history w' = the_history ex_starved.
Proof.
  apply (update_starved_child_fails_after_transplant ex_expand_vnode ex_self
           ex_starved 0%nat 0%nat tt None 1%nat
           (mkVNode 2 0 (VBelief 5) 1%nat None) [1; 2]%nat).
  - vm_compute; reflexivity.
  - vm_compute; reflexivity.
  - reflexivity.
  - reflexivity.
  - reflexivity.
Defined.

(** X4 on the session: the defaults are the objects at references 1 and
    0. *)
Lemma RootVNodeParticles_default_is_shared_witness :
  exists w',
    two_roots_then_add 1 0 (VHistory []) 9%nat (ex_planned 0)
      = Ok (length (vnodes (ex_planned 0)),
            S (length (vnodes (ex_planned 0))),
            S (S (length (vnodes (ex_planned 0))))) w'
    /\ node_particles w' (length (vnodes (ex_planned 0)))
       = Some ([] ++ [9%nat])
    /\ node_particles w' (S (length (vnodes (ex_planned 0))))
       = Some ([] ++ [9%nat])
    /\ node_particles w' (S (S (length (vnodes (ex_planned 0))))) = Some [].
Proof.
  apply (RootVNodeParticles_default_is_shared (ex_planned 0) 1%nat 0%nat
           [] [] 1 0 (VHistory []) 9%nat).
  - reflexivity.
  - reflexivity.
  - lia.
  - reflexivity.
  - reflexivity.
Defined.


(** X13 on the session. *)
Lemma update_reuses_subtree_witness :
  exists w',
    update ex_expand_vnode ex_self 0%nat 0%nat tt None (ex_planned 0)
      = Ok tt w'
    /\ forall a2 o2 : nat,
         child_slot w' a2 o2 = node_slot (ex_planned 0) 1%nat a2 o2.
Proof.
  apply (update_reuses_subtree ex_expand_vnode ex_self (ex_planned 0)
           0%nat 0%nat tt None 1%nat (mkVNode 2 0 (VBelief 5) 1%nat None)
           [5%nat] [1; 2]%nat).
  - vm_compute; reflexivity.
  - vm_compute; reflexivity.
  - reflexivity.
  - reflexivity.
  - discriminate.
  - reflexivity.
Defined.
